(** * Turnus Planner backend: the shift rotation and the keyword matcher

    A shallow embedding of [src/main.py] (the handlers [generate_schedule]
    and [interpret_preferences]) together with the part of Python's
    [datetime.date] the handler relies on, and the properties of the
    monthly roster stated in the specification. *)

From Stdlib Require Import ZArith NArith Ascii String List Bool Lia.
From Stdlib Require Import DecimalString.
From Stdlib Require Import Floats.SpecFloat.
From stdpp Require Import base option list gmap strings fin_maps.
Import ListNotations.

Local Open Scope string_scope.
Local Open Scope list_scope.
Local Open Scope Z_scope.

(** ** Python values and exceptions *)

(** The exceptions the two handlers can end with. *)
Inductive exn : Type :=
  | ValueError
  | OverflowError
  | HTTPException (status_code : Z) (detail : string).

Inductive result (A : Type) : Type :=
  | Ok (a : A)
  | Raise (e : exn).
Arguments Ok {A} a.
Arguments Raise {A} e.

#[global] Instance result_ret : MRet result := fun A a => Ok a.

#[global] Instance result_bind : MBind result := fun A B k r =>
  match r with
  | Ok a => k a
  | Raise e => Raise e
  end.

(** Values a document field (a BSON value read back as a Python object)
    can hold; only their truth value matters to the rotation. *)
Inductive PyVal : Type :=
  | PyNone
  | PyBool (b : bool)
  | PyInt (z : Z)
  | PyFloat (f : spec_float)
  | PyStr (s : string).

(** [bool(v)] *)
Definition truthy (v : PyVal) : bool :=
  match v with
  | PyNone => false
  | PyBool b => b
  | PyInt z => negb (z =? 0)
  | PyFloat (S754_zero _) => false
  | PyFloat _ => true
  | PyStr s => negb (String.eqb s "")
  end.

(** [d.get(k)]: the value, or [None] for a missing key. *)
Definition dict_get (d : gmap string PyVal) (k : string) : PyVal :=
  default PyNone (d !! k).

(** The float [1.0]. *)
Definition float_one : spec_float := S754_finite false 4503599627370496 (-52).

(** ** [datetime.date]

    The proleptic Gregorian calendar of the standard library, after its
    reference implementation: ordinals count days from 0001-01-01 = 1.
    The constructor takes its arguments as the C implementation does. *)

Module datetime.

Definition MINYEAR : Z := 1.
Definition MAXYEAR : Z := 9999.
Definition _MAXORDINAL : Z := 3652059.

Definition _DAYS_IN_MONTH (m : Z) : Z :=
  match m with
  | 1 => 31 | 2 => 28 | 3 => 31 | 4 => 30 | 5 => 31 | 6 => 30
  | 7 => 31 | 8 => 31 | 9 => 30 | 10 => 31 | 11 => 30 | 12 => 31
  | _ => -1
  end.

Definition _DAYS_BEFORE_MONTH (m : Z) : Z :=
  match m with
  | 1 => 0 | 2 => 31 | 3 => 59 | 4 => 90 | 5 => 120 | 6 => 151
  | 7 => 181 | 8 => 212 | 9 => 243 | 10 => 273 | 11 => 304 | 12 => 334
  | _ => -1
  end.

Definition b2z (b : bool) : Z := if b then 1 else 0.

Definition _is_leap (year : Z) : bool :=
  (year mod 4 =? 0) && (negb (year mod 100 =? 0) || (year mod 400 =? 0)).

Definition _days_before_year (year : Z) : Z :=
  let y := year - 1 in
  y * 365 + y / 4 - y / 100 + y / 400.

Definition _days_in_month (year month : Z) : Z :=
  if (month =? 2) && _is_leap year then 29 else _DAYS_IN_MONTH month.

Definition _days_before_month (year month : Z) : Z :=
  _DAYS_BEFORE_MONTH month + b2z ((2 <? month) && _is_leap year).

Definition _ymd2ord (year month day : Z) : Z :=
  _days_before_year year + _days_before_month year month + day.

Definition _DI400Y : Z := 146097.
Definition _DI100Y : Z := 36524.
Definition _DI4Y : Z := 1461.

(** The tail of [_ord2ymd]: month and day from the 0-based day of a year. *)
Definition _month_day (leapyear : bool) (n : Z) : Z * Z :=
  let month := Z.shiftr (n + 50) 5 in
  let preceding := _DAYS_BEFORE_MONTH month + b2z ((2 <? month) && leapyear) in
  if n <? preceding then
    let month := month - 1 in
    let preceding :=
      preceding - (_DAYS_IN_MONTH month + b2z ((month =? 2) && leapyear)) in
    (month, n - preceding + 1)
  else (month, n - preceding + 1).

Definition _ord2ymd (n0 : Z) : Z * Z * Z :=
  let n := n0 - 1 in
  let n400 := n / _DI400Y in
  let n := n mod _DI400Y in
  let year := n400 * 400 + 1 in
  let n100 := n / _DI100Y in
  let n := n mod _DI100Y in
  let n4 := n / _DI4Y in
  let n := n mod _DI4Y in
  let n1 := n / 365 in
  let n := n mod 365 in
  let year := year + (n100 * 100 + n4 * 4 + n1) in
  if (n1 =? 4) || (n100 =? 4) then (year - 1, 12, 31)
  else
    let leapyear := (n1 =? 3) && (negb (n4 =? 24) || (n100 =? 3)) in
    let '(month, day) := _month_day leapyear n in
    (year, month, day).

Record date : Type := Date { year : Z; month : Z; day : Z }.

(** [_check_date_fields]: what the constructor accepts. *)
Definition _check_date_fields (y m d : Z) : bool :=
  (MINYEAR <=? y) && (y <=? MAXYEAR) &&
  (1 <=? m) && (m <=? 12) &&
  (1 <=? d) && (d <=? _days_in_month y m).

(** The arguments of the constructor are read as C [int]s: one that
    does not fit raises [OverflowError] before any field is checked. *)
Definition _fits_c_int (z : Z) : bool :=
  (-2147483648 <=? z) && (z <=? 2147483647).

(** [date(year, month, day)] *)
Definition new (y m d : Z) : result date :=
  if negb (_fits_c_int y && _fits_c_int m && _fits_c_int d)
  then Raise OverflowError
  else if _check_date_fields y m d then Ok (Date y m d) else Raise ValueError.

(** [self.replace(day=d)] *)
Definition replace_day (self : date) (d : Z) : result date :=
  new (year self) (month self) d.

Definition toordinal (self : date) : Z :=
  _ymd2ord (year self) (month self) (day self).

Definition fromordinal (n : Z) : result date :=
  let '(y, m, d) := _ord2ymd n in new y m d.

(** [self + timedelta(days=days)] *)
Definition add_days (self : date) (days : Z) : result date :=
  let o := toordinal self + days in
  if (0 <? o) && (o <=? _MAXORDINAL) then fromordinal o
  else Raise OverflowError.

(** [(self - other).days] *)
Definition sub_days (self other : date) : Z :=
  toordinal self - toordinal other.

(** [self.weekday()]: 0 is Monday, 6 is Sunday. *)
Definition weekday (self : date) : Z :=
  (toordinal self + 6) mod 7.

Definition digit (n : Z) : ascii := ascii_of_N (Z.to_N (48 + n)).

(** ["%02d" % n] and ["%04d" % n] for the values a date field takes
    (two digits for month and day, four for a year up to [MAXYEAR]). *)
Definition fmt_02d (n : Z) : string :=
  String (digit (n / 10)) (String (digit (n mod 10)) EmptyString).

Definition fmt_04d (n : Z) : string :=
  String (digit (n / 1000))
    (String (digit (n / 100 mod 10))
       (String (digit (n / 10 mod 10))
          (String (digit (n mod 10)) EmptyString))).

(** [self.isoformat()] *)
Definition isoformat (self : date) : string :=
  (fmt_04d (year self) ++ "-" ++ fmt_02d (month self) ++ "-"
     ++ fmt_02d (day self))%string.

End datetime.

(** ** Documents of the store *)

Module AbsencePeriod.
Record t : Type := Build {
  start : datetime.date;
  end_ : datetime.date;
  reason : option string }.
End AbsencePeriod.

(** An employee document as [db.employee.find] returns it. [_id] is the
    text [str(emp["_id"])]; [hard_rules] is [None] when the document has
    no such key, which [emp.get("hard_rules", {})] reads as the empty map. *)
Module Employee.
Record doc : Type := Build {
  _id : string;
  department_id : string;
  name : string;
  contract_percentage : Z;
  preferences_text : option string;
  hard_rules : option (gmap string PyVal);
  soft_preferences : gmap string PyVal;
  absences : list AbsencePeriod.t }.
End Employee.

(** One entry of [assignments]: [{"date", "employee_id", "shift"}]. *)
Module DailyAssignment.
Record t : Type := Build {
  date : string;
  employee_id : string;
  shift : string }.
End DailyAssignment.

Module Schedule.
Record doc : Type := Build {
  _id : string;
  department_id : string;
  year : Z;
  month : Z;
  assignments : list DailyAssignment.t;
  created_at : Z }.
End Schedule.

(** The two collections the handler touches. *)
Record Db : Type := BuildDb {
  db_employee : list Employee.doc;
  db_schedule : list Schedule.doc }.

(** [list(db.employee.find({"department_id": department_id}))] *)
Definition find_employees (db : Db) (department_id : string) : list Employee.doc :=
  filter (fun e => Employee.department_id e = department_id) (db_employee db).

(** [db.schedule.insert_one(doc)] *)
Definition insert_schedule (db : Db) (d : Schedule.doc) : Db :=
  {| db_employee := db_employee db; db_schedule := db_schedule db ++ [d] |}.

Module GenerateRequest.
Record t : Type := Build {
  department_id : string;
  year : Z;
  month : Z }.
End GenerateRequest.

Module GenerateResponse.
Record t : Type := Build {
  id : string;
  assignments : list DailyAssignment.t }.
End GenerateResponse.

(** ** [generate_schedule] *)

Definition rotation : list string := ["D"; "E"; "N"].

(** [emp.get("hard_rules", {}).get(key)] *)
Definition hard_rule (emp : Employee.doc) (key : string) : PyVal :=
  dict_get (default ∅ (Employee.hard_rules emp)) key.

(** The body of the inner loop, lines 142-154: the shift of the employee
    at position [idx] on the day [day_offset] days into the month. *)
Definition shift_of (day_offset idx : nat) (weekday : Z) (emp : Employee.doc)
  : string :=
  if ((day_offset + idx) mod 7 =? 6)%nat then "OFF"
  else
    let prefers_no_night := hard_rule emp "no_night" in
    let base := nth ((day_offset + idx) mod 3)%nat rotation "" in
    let shift :=
      if truthy prefers_no_night && String.eqb base "N" then "D" else base in
    if truthy (hard_rule emp "no_after_16_friday") && (weekday =? 4)
       && (String.eqb shift "E" || String.eqb shift "N")
    then "D" else shift.

(** [enumerate(l)] *)
Definition enumerate {A : Type} (l : list A) : list (nat * A) :=
  imap pair l.

(** The inner loop: one [assignments.append] per employee. *)
Definition employees_loop (d : datetime.date) (day_offset : nat)
    (employees : list Employee.doc) (assignments : list DailyAssignment.t)
  : list DailyAssignment.t :=
  fold_left
    (fun acc '(idx, emp) =>
       acc ++ [ {| DailyAssignment.date := datetime.isoformat d;
                   DailyAssignment.employee_id := Employee._id emp;
                   DailyAssignment.shift :=
                     shift_of day_offset idx (datetime.weekday d) emp |} ])
    (enumerate employees) assignments.

(** The outer loop over [range(days)]. *)
Fixpoint days_loop (start : datetime.date) (offsets : list nat)
    (employees : list Employee.doc) (assignments : list DailyAssignment.t)
  : result (list DailyAssignment.t) :=
  match offsets with
  | [] => Ok assignments
  | day_offset :: rest =>
      d ← datetime.add_days start (Z.of_nat day_offset);
      days_loop start rest employees
        (employees_loop d day_offset employees assignments)
  end.

(** Lines 130-132: the first day of the month and its number of days. *)
Definition month_span (year month : Z) : result (datetime.date * Z) :=
  start ← datetime.new year month 1;
  d28 ← datetime.replace_day start 28;
  d32 ← datetime.add_days d28 4;
  next_month ← datetime.replace_day d32 1;
  Ok (start, datetime.sub_days next_month start).

(** Lines 130-160: the assignment list for a non-empty employee list. *)
Definition build_assignments (year month : Z) (employees : list Employee.doc)
  : result (list DailyAssignment.t) :=
  '(start, days) ← month_span year month;
  days_loop start (seq 0 (Z.to_nat days)) employees [].

(** The handler. [now] is what [datetime.utcnow()] reads and [oid] the
    identifier the store gives the inserted document; an exception leaves
    the store as it was. *)
Definition generate_schedule (db : Db) (now : Z) (oid : string)
    (body : GenerateRequest.t) : Db * result GenerateResponse.t :=
  let employees := find_employees db (GenerateRequest.department_id body) in
  match employees with
  | [] => (db, Raise (HTTPException 400 "No employees in department"))
  | _ :: _ =>
      match build_assignments (GenerateRequest.year body)
              (GenerateRequest.month body) employees with
      | Raise e => (db, Raise e)
      | Ok assignments =>
          let schedule_doc :=
            {| Schedule._id := oid;
               Schedule.department_id := GenerateRequest.department_id body;
               Schedule.year := GenerateRequest.year body;
               Schedule.month := GenerateRequest.month body;
               Schedule.assignments := assignments;
               Schedule.created_at := now |} in
          (insert_schedule db schedule_doc,
           Ok {| GenerateResponse.id := oid;
                 GenerateResponse.assignments := assignments |})
      end
  end.

(** ** [interpret_preferences] *)

Module PreferenceInterpretation.
Record t : Type := Build {
  hard_rules : gmap string PyVal;
  soft_preferences : gmap string PyVal }.
End PreferenceInterpretation.

(** [p] is a prefix of [s]. *)
Fixpoint startswith (s p : string) : bool :=
  match p, s with
  | EmptyString, _ => true
  | String a p', String b s' => Ascii.eqb a b && startswith s' p'
  | String _ _, EmptyString => false
  end.

(** [sub in s] *)
Fixpoint str_contains (sub s : string) : bool :=
  startswith s sub ||
  match s with
  | EmptyString => false
  | String _ s' => str_contains sub s'
  end.

(** [str.lower] on the ASCII range, where it maps [A-Z] to [a-z]. *)
Definition ascii_lower_char (c : ascii) : ascii :=
  let n := N_of_ascii c in
  if ((65 <=? n) && (n <=? 90))%N then ascii_of_N (n + 32) else c.

Fixpoint ascii_lower (s : string) : string :=
  match s with
  | EmptyString => EmptyString
  | String c s' => String (ascii_lower_char c) (ascii_lower s')
  end.

Section Interpret.

(** [str.lower], whose case tables belong to the runtime: the handler is
    modelled over any lower-casing function. *)
Variable lower : string -> string.

Definition interpret_preferences (req_text : string)
  : PreferenceInterpretation.t :=
  let text := lower req_text in
  let hard : gmap string PyVal := ∅ in
  let soft : gmap string PyVal := ∅ in
  let hard :=
    if str_contains "never night" text || str_contains "avoid night" text
       || str_contains "ikke natt" text
    then <["no_night" := PyBool true]> hard else hard in
  let soft :=
    if str_contains "prefer day" text || str_contains "day shifts" text
       || str_contains "dagvakt" text
    then <["prefer_day" := PyFloat float_one]> soft else soft in
  let soft :=
    if str_contains "prefer evening" text || str_contains "kveld" text
    then <["prefer_evening" := PyFloat float_one]> soft else soft in
  let hard :=
    if str_contains "cannot work after 16" text
       || str_contains "ikke etter 16" text
    then <["no_after_16_friday" := PyBool true]> hard else hard in
  {| PreferenceInterpretation.hard_rules := hard;
     PreferenceInterpretation.soft_preferences := soft |}.

End Interpret.

(** ** Specification-side definitions *)

(** The Gregorian length of a month, as a calendar states it. *)
Definition gregorian_leap (year : Z) : bool :=
  if year mod 400 =? 0 then true
  else if year mod 100 =? 0 then false
  else year mod 4 =? 0.

Definition calendar_days (year month : Z) : Z :=
  match month with
  | 2 => if gregorian_leap year then 29 else 28
  | 4 | 6 | 9 | 11 => 30
  | _ => 31
  end.

(** The months [generate_schedule] can build: any month of the years
    [MINYEAR .. MAXYEAR] whose successor month is still a date. *)
Definition month_in_range (year month : Z) : Prop :=
  1 <= year <= 9999 /\ 1 <= month <= 12 /\ (year = 9999 -> month <> 12).

(** The rule table of the specification, section 4.1. *)
Definition has_flag (emp : Employee.doc) (key : string) : bool :=
  match Employee.hard_rules emp with
  | Some rules =>
      match rules !! key with
      | Some v => truthy v
      | None => false
      end
  | None => false
  end.

Definition base_rotation (i idx : nat) : string :=
  match ((i + idx) mod 3)%nat with
  | O => "D"
  | 1%nat => "E"
  | _ => "N"
  end.

Definition no_night_override (emp : Employee.doc) (s : string) : string :=
  if has_flag emp "no_night" && String.eqb s "N" then "D" else s.

Definition friday_override (emp : Employee.doc) (weekday : Z) (s : string)
  : string :=
  if has_flag emp "no_after_16_friday" && (weekday =? 4)
     && (String.eqb s "E" || String.eqb s "N")
  then "D" else s.

Definition spec_shift (i idx : nat) (weekday : Z) (emp : Employee.doc) : string :=
  if ((i + idx) mod 7 =? 6)%nat then "OFF"
  else friday_override emp weekday (no_night_override emp (base_rotation i idx)).

(** The entry for the employee [emp] at position [idx] on the date [d],
    [i] days into the month. *)
Definition entry_on (d : datetime.date) (i idx : nat) (emp : Employee.doc)
  : DailyAssignment.t :=
  {| DailyAssignment.date := datetime.isoformat d;
     DailyAssignment.employee_id := Employee._id emp;
     DailyAssignment.shift := spec_shift i idx (datetime.weekday d) emp |}.

(** Day [i] (0-based) of a month as a date. *)
Definition day_of (year month : Z) (i : nat) : datetime.date :=
  datetime.Date year month (Z.of_nat i + 1).

Definition entry_of (year month : Z) (i idx : nat) (emp : Employee.doc)
  : DailyAssignment.t :=
  entry_on (day_of year month i) i idx emp.

(** The roster of a month: day by day, and within a day in the order of
    the employee list. *)
Definition roster (year month : Z) (employees : list Employee.doc)
  : list DailyAssignment.t :=
  flat_map (fun i => imap (entry_of year month i) employees)
    (seq 0 (Z.to_nat (calendar_days year month))).

(** The (date, employee) pair an entry is for. *)
Definition slot (a : DailyAssignment.t) : string * string :=
  (DailyAssignment.date a, DailyAssignment.employee_id a).

(** [sub] occurs in [s]. *)
Definition occurs_in (sub s : string) : Prop :=
  exists pre post : string, s = (pre ++ sub ++ post)%string.

(** What a run hands back, without the store-generated identifier. *)
Definition returned_assignments (r : Db * result GenerateResponse.t)
  : result (list DailyAssignment.t) :=
  match snd r with
  | Ok resp => Ok (GenerateResponse.assignments resp)
  | Raise e => Raise e
  end.

(** Two employee documents that differ at most in the fields the spec
    calls unused. *)
Definition same_identity_and_rules (e1 e2 : Employee.doc) : Prop :=
  Employee._id e1 = Employee._id e2 /\
  Employee.hard_rules e1 = Employee.hard_rules e2.

(** The schedule document a run stores for the assignment list [l]. *)
Definition schedule_doc_of (now : Z) (oid : string) (body : GenerateRequest.t)
    (l : list DailyAssignment.t) : Schedule.doc :=
  {| Schedule._id := oid;
     Schedule.department_id := GenerateRequest.department_id body;
     Schedule.year := GenerateRequest.year body;
     Schedule.month := GenerateRequest.month body;
     Schedule.assignments := l;
     Schedule.created_at := now |}.

(** [l] holds, for day [i] and the employee at position [idx], the shift
    of the rule table: Off on the rest day, else the shift the table
    Day, Evening, Night has at [(i + idx) mod 3] after the two overrides,
    which is a working shift. *)
Definition follows_rule_table (employees : list Employee.doc) (y m : Z)
    (l : list DailyAssignment.t) : Prop :=
  forall (i idx : nat) (emp : Employee.doc),
    (i < Z.to_nat (calendar_days y m))%nat ->
    employees !! idx = Some emp ->
    exists a, l !! (i * length employees + idx)%nat = Some a /\
      if ((i + idx) mod 7 =? 6)%nat then DailyAssignment.shift a = "OFF"
      else exists base,
          ["D"; "E"; "N"] !! ((i + idx) mod 3)%nat = Some base /\
          DailyAssignment.shift a
          = friday_override emp (datetime.weekday (day_of y m i))
              (no_night_override emp base) /\
          In (DailyAssignment.shift a) ["D"; "E"; "N"].

(** [l] has one entry per day and employee, day after day and within a
    day in list order, and no (date, employee) pair twice. *)
Definition roster_shape (employees : list Employee.doc) (y m : Z)
    (l : list DailyAssignment.t) : Prop :=
  let D := Z.to_nat (calendar_days y m) in
  let E := length employees in
  length l = (D * E)%nat /\
  (forall k : nat, (k < D * E)%nat ->
     exists a emp, l !! k = Some a /\ employees !! (k mod E)%nat = Some emp /\
       DailyAssignment.date a = datetime.isoformat (day_of y m (k / E)%nat) /\
       DailyAssignment.employee_id a = Employee._id emp) /\
  (forall (i idx : nat) (emp : Employee.doc),
     (i < D)%nat -> employees !! idx = Some emp ->
     exists a, l !! (i * E + idx)%nat = Some a /\
       slot a = (datetime.isoformat (day_of y m i), Employee._id emp)) /\
  (NoDup (Employee._id <$> employees) -> NoDup (slot <$> l)).

(** The second half of the empty-department claim, as it is worded: a
    staffed department always gets its roster returned and stored. *)
Definition staffed_run_persists (db : Db) (now : Z) (oid : string)
    (body : GenerateRequest.t) : Prop :=
  find_employees db (GenerateRequest.department_id body) <> [] ->
  exists l,
    generate_schedule db now oid body
    = (insert_schedule db (schedule_doc_of now oid body l),
       Ok {| GenerateResponse.id := oid; GenerateResponse.assignments := l |}).

(** On the date [dt] every employee of the list has an entry in [l], and
    every entry of that date has the shift [s]. *)
Definition all_on_date (employees : list Employee.doc)
    (l : list DailyAssignment.t) (dt s : string) : Prop :=
  Forall (fun emp =>
            Exists (fun a => DailyAssignment.date a = dt /\
                             DailyAssignment.employee_id a = Employee._id emp) l)
    employees /\
  Forall (fun a => DailyAssignment.date a = dt -> DailyAssignment.shift a = s) l.

(** Exhaustive check of [_month_day] against the month tables, over both
    kinds of year, the twelve months and the days of each. *)
Definition month_day_check (leap : bool) (m d : Z) : bool :=
  let dim := datetime._DAYS_IN_MONTH m + datetime.b2z ((m =? 2) && leap) in
  let t := datetime._DAYS_BEFORE_MONTH m
           + datetime.b2z ((2 <? m) && leap) + d - 1 in
  implb (d <=? dim)
    ((0 <=? t) && (t <? 365 + datetime.b2z leap) && (28 <=? dim) && (dim <=? 31)
     && (if t =? 365 then (m =? 12) && (d =? 31)
         else let '(m', d') := datetime._month_day leap t in
              (m' =? m) && (d' =? d))).

Definition month_day_check_all : bool :=
  forallb (fun leap =>
    forallb (fun m =>
      forallb (fun d => month_day_check leap (Z.of_nat m) (Z.of_nat d))
        (seq 1 31))
      (seq 1 12))
    [true; false].

(** ** Sample data *)

Definition employee (oid dept : string) (rules : option (gmap string PyVal))
  : Employee.doc :=
  {| Employee._id := oid;
     Employee.department_id := dept;
     Employee.name := "";
     Employee.contract_percentage := 100;
     Employee.preferences_text := None;
     Employee.hard_rules := rules;
     Employee.soft_preferences := ∅;
     Employee.absences := [] |}.

Definition both_rules : gmap string PyVal :=
  <["no_night" := PyBool true]> (<["no_after_16_friday" := PyBool true]> ∅).

Definition ward : list Employee.doc :=
  [ employee "e0" "ward" (Some both_rules);
    employee "e1" "ward" (Some both_rules);
    employee "e2" "ward" (Some both_rules) ].

Definition ward_db : Db := {| db_employee := ward; db_schedule := [] |}.

Definition solo : list Employee.doc := [ employee "e0" "solo" None ].

Definition solo_db : Db := {| db_employee := solo; db_schedule := [] |}.

Definition request (dept : string) (year month : Z) : GenerateRequest.t :=
  {| GenerateRequest.department_id := dept;
     GenerateRequest.year := year;
     GenerateRequest.month := month |}.

(** The ward again, seen from a store that also holds another department
    and an older schedule. *)
Definition busy_db : Db :=
  {| db_employee := employee "x9" "lab" None :: ward;
     db_schedule :=
       [ {| Schedule._id := "s0";
            Schedule.department_id := "lab";
            Schedule.year := 2023;
            Schedule.month := 12;
            Schedule.assignments := [];
            Schedule.created_at := 7 |} ] |}.

(** The ward with the fields the rotation does not read changed. *)
Definition part_time (e : Employee.doc) : Employee.doc :=
  {| Employee._id := Employee._id e;
     Employee.department_id := Employee.department_id e;
     Employee.name := "N.N.";
     Employee.contract_percentage := 50;
     Employee.preferences_text := Some "prefer day";
     Employee.hard_rules := Employee.hard_rules e;
     Employee.soft_preferences := <["prefer_day" := PyFloat float_one]> ∅;
     Employee.absences :=
       [ {| AbsencePeriod.start := datetime.Date 2024 3 1;
            AbsencePeriod.end_ := datetime.Date 2024 3 31;
            AbsencePeriod.reason := None |} ] |}.

Definition part_time_db : Db :=
  {| db_employee := part_time <$> ward; db_schedule := [] |}.

(** ** [get_schedule] *)

(** The document [get_schedule] answers with: the stored one with its
    [_id] popped and put back, as text, under [id]. *)
Module ScheduleView.
Record t : Type := Build {
  id : string;
  department_id : string;
  year : Z;
  month : Z;
  assignments : list DailyAssignment.t;
  created_at : Z }.
End ScheduleView.

(** [db.schedule.find_one({"department_id": .., "year": .., "month": ..})]:
    the first stored document with these three fields. *)
Definition find_one_schedule (db : Db) (department_id : string) (year month : Z)
  : option Schedule.doc :=
  head (filter (fun d => Schedule.department_id d = department_id /\
                         Schedule.year d = year /\ Schedule.month d = month)
          (db_schedule db)).

Definition get_schedule (db : Db) (department_id : string) (year month : Z)
  : result ScheduleView.t :=
  match find_one_schedule db department_id year month with
  | None => Raise (HTTPException 404 "Schedule not found")
  | Some doc =>
      Ok {| ScheduleView.id := Schedule._id doc;
            ScheduleView.department_id := Schedule.department_id doc;
            ScheduleView.year := Schedule.year doc;
            ScheduleView.month := Schedule.month doc;
            ScheduleView.assignments := Schedule.assignments doc;
            ScheduleView.created_at := Schedule.created_at doc |}
  end.

(** ** [login] *)

Module User.
Record doc : Type := Build {
  _id : string;
  username : string;
  password_hash : string;
  role : string;
  municipality_ids : list string;
  department_ids : list string;
  session_token : option string;
  is_active : bool }.
End User.

Module LoginRequest.
Record t : Type := Build { username : string; password : string }.
End LoginRequest.

Module LoginResponse.
Record t : Type := Build { token : string; role : string; username : string }.
End LoginResponse.

(** [db.user.find_one({"username": username, "is_active": True})] *)
Definition find_one_user (users : list User.doc) (username : string)
  : option User.doc :=
  head (filter (fun u => User.username u = username /\ User.is_active u = true)
          users).

Definition set_session_token (u : User.doc) (token : string) : User.doc :=
  {| User._id := User._id u;
     User.username := User.username u;
     User.password_hash := User.password_hash u;
     User.role := User.role u;
     User.municipality_ids := User.municipality_ids u;
     User.department_ids := User.department_ids u;
     User.session_token := Some token;
     User.is_active := User.is_active u |}.

(** [db.user.update_one({"_id": oid}, {"$set": {"session_token": token}})]:
    the first document with this [_id] is updated. *)
Fixpoint update_one_session_token (users : list User.doc) (oid token : string)
  : list User.doc :=
  match users with
  | [] => []
  | u :: rest =>
      if decide (User._id u = oid) then set_session_token u token :: rest
      else u :: update_one_session_token rest oid token
  end.

(** [str(n)] for an [int]. *)
Definition str_of_int (n : Z) : string := NilZero.string_of_int (Z.to_int n).

(** The handler over the user collection. [now] is
    [int(datetime.utcnow().timestamp())]. *)
Definition login (users : list User.doc) (now : Z) (req : LoginRequest.t)
  : list User.doc * result LoginResponse.t :=
  match find_one_user users (LoginRequest.username req) with
  | None => (users, Raise (HTTPException 401 "Invalid credentials"))
  | Some user =>
      if negb (String.eqb (User.password_hash user) (LoginRequest.password req))
      then (users, Raise (HTTPException 401 "Invalid credentials"))
      else
        let token :=
          ("demo-" ++ User.username user ++ "-" ++ str_of_int now)%string in
        (update_one_session_token users (User._id user) token,
         Ok {| LoginResponse.token := token;
               LoginResponse.role := User.role user;
               LoginResponse.username := User.username user |})
  end.

(** ** [OID.to_str] *)

Section OID.

(** [str] on the values a document holds under ["_id"]. *)
Variable str : PyVal -> string.

(** [OID.to_str(doc)] for a [dict]: a truthy ["_id"] is popped and put
    back, as text, under ["id"]. *)
Definition to_str (doc : gmap string PyVal) : gmap string PyVal :=
  if truthy (dict_get doc "_id") then
    match doc !! "_id" with
    | Some v => <["id" := PyStr (str v)]> (delete "_id" doc)
    | None => doc
    end
  else doc.

End OID.

(** ** Further specification-side definitions *)

(** The employee [emp] with its hard rules taken away. *)
Definition without_rules (emp : Employee.doc) : Employee.doc :=
  {| Employee._id := Employee._id emp;
     Employee.department_id := Employee.department_id emp;
     Employee.name := Employee.name emp;
     Employee.contract_percentage := Employee.contract_percentage emp;
     Employee.preferences_text := Employee.preferences_text emp;
     Employee.hard_rules := None;
     Employee.soft_preferences := Employee.soft_preferences emp;
     Employee.absences := Employee.absences emp |}.

(** The employee [emp] with the hard rules an interpretation gave. *)
Definition with_interpretation (emp : Employee.doc)
    (p : PreferenceInterpretation.t) : Employee.doc :=
  {| Employee._id := Employee._id emp;
     Employee.department_id := Employee.department_id emp;
     Employee.name := Employee.name emp;
     Employee.contract_percentage := Employee.contract_percentage emp;
     Employee.preferences_text := Employee.preferences_text emp;
     Employee.hard_rules := Some (PreferenceInterpretation.hard_rules p);
     Employee.soft_preferences := PreferenceInterpretation.soft_preferences p;
     Employee.absences := Employee.absences emp |}.

(** The entry of [l] for day [i] and employee position [idx] is Off. *)
Definition off_at (E : nat) (l : list DailyAssignment.t) (idx i : nat) : bool :=
  match l !! (i * E + idx)%nat with
  | Some a => String.eqb (DailyAssignment.shift a) "OFF"
  | None => false
  end.

(** The number of rest days of the employee at position [idx] among the
    first [D] days of [l]. *)
Definition rest_days (E : nat) (l : list DailyAssignment.t) (D idx : nat) : nat :=
  length (List.filter (off_at E l idx) (seq 0 D)).

(** The rest days the rotation gives position [idx] in [D] days. *)
Definition rotation_rest_days (D idx : nat) : nat :=
  length (List.filter (fun i => ((i + idx) mod 7 =? 6)%nat) (seq 0 D)).

Definition rest_days_check : bool :=
  forallb (fun D =>
    forallb (fun r => let n := rotation_rest_days D r in
                      ((4 <=? n) && (n <=? 5))%nat)
      (seq 0 7))
    (seq 28 4).

(** The shift of the entry of [l] for day [i] and position [idx]. *)
Definition shift_at (E : nat) (l : list DailyAssignment.t) (i idx : nat)
  : option string :=
  DailyAssignment.shift <$> l !! (i * E + idx)%nat.

(** Sample users. *)
Definition user (oid name pw role : string) (active : bool) : User.doc :=
  {| User._id := oid;
     User.username := name;
     User.password_hash := pw;
     User.role := role;
     User.municipality_ids := [];
     User.department_ids := [];
     User.session_token := None;
     User.is_active := active |}.

Definition staff : list User.doc :=
  [ user "u1" "kari" "hemmelig" "department_leader" true;
    user "u2" "ola" "passord" "municipal_admin" false;
    user "u3" "per" "1234" "department_leader" true ].

(** * Properties *)

(** ** Calendar arithmetic *)

Section Calendar.
Import datetime.

Lemma divmod_unique (n d q r : Z) :
  0 <= r < d -> n = d * q + r -> n / d = q /\ n mod d = r.
Proof.
  intros Hr Hn. split; symmetry.
  - apply (Z.div_unique n d q r); lia.
  - apply (Z.mod_unique n d q r); lia.
Qed.

(** A year, less one, split along the 400-, 100- and 4-year cycles. *)
Lemma year_decompose (Y : Z) :
  0 <= Y ->
  exists a b c e, Y = 400 * a + 100 * b + 4 * c + e /\
    0 <= a /\ 0 <= b <= 3 /\ 0 <= c <= 24 /\ 0 <= e <= 3.
Proof.
  intros HY.
  exists (Y / 400), (Y mod 400 / 100), (Y mod 400 mod 100 / 4),
    (Y mod 400 mod 100 mod 4).
  Z.div_mod_to_equations. lia.
Qed.

Lemma is_leap_decomposed (a b c e : Z) :
  0 <= a -> 0 <= b <= 3 -> 0 <= c <= 24 -> 0 <= e <= 3 ->
  _is_leap (400 * a + 100 * b + 4 * c + e + 1)
  = (e =? 3) && (negb (c =? 24) || (b =? 3)).
Proof.
  intros Ha Hb Hc He. unfold _is_leap.
  set (y := 400 * a + 100 * b + 4 * c + e + 1).
  assert (y mod 4 = (e + 1) mod 4) as ->
    by (subst y; Z.div_mod_to_equations; lia).
  assert (y mod 100 = (4 * c + e + 1) mod 100) as ->
    by (subst y; Z.div_mod_to_equations; lia).
  assert (y mod 400 = (100 * b + 4 * c + e + 1) mod 400) as ->
    by (subst y; Z.div_mod_to_equations; lia).
  destruct (Z.eqb_spec e 3) as [->|He3].
  - change ((3 + 1) mod 4 =? 0) with true. cbn [andb].
    destruct (Z.eqb_spec c 24) as [->|Hc24].
    + change ((4 * 24 + 3 + 1) mod 100 =? 0) with true. cbn [negb orb].
      destruct (Z.eqb_spec b 3) as [->|Hb3]; [reflexivity|].
      apply Z.eqb_neq. Z.div_mod_to_equations. lia.
    + cbn [negb orb].
      assert ((4 * c + 3 + 1) mod 100 <> 0) as Hn
        by (Z.div_mod_to_equations; lia).
      apply Z.eqb_neq in Hn. rewrite Hn. reflexivity.
  - cbn [andb].
    assert ((e + 1) mod 4 <> 0) as Hn by (Z.div_mod_to_equations; lia).
    apply Z.eqb_neq in Hn. rewrite Hn. reflexivity.
Qed.

Lemma days_before_year_decomposed (a b c e : Z) :
  0 <= a -> 0 <= b <= 3 -> 0 <= c <= 24 -> 0 <= e <= 3 ->
  _days_before_year (400 * a + 100 * b + 4 * c + e + 1)
  = 146097 * a + 36524 * b + 1461 * c + 365 * e.
Proof.
  intros Ha Hb Hc He. unfold _days_before_year. cbv zeta.
  replace (400 * a + 100 * b + 4 * c + e + 1 - 1)
    with (400 * a + 100 * b + 4 * c + e) by lia.
  Z.div_mod_to_equations. lia.
Qed.

Ltac leap_cases e c b Ht :=
  destruct (Z.eqb_spec e 3), (Z.eqb_spec c 24), (Z.eqb_spec b 3);
  cbn in Ht; lia.

(** The year part of [_ord2ymd]: on day [t] (0-based) of year [y]. *)
Lemma ord2ymd_year (y t : Z) :
  1 <= y -> 0 <= t < 365 + b2z (_is_leap y) ->
  _ord2ymd (_days_before_year y + t + 1)
  = if t =? 365 then (y, 12, 31)
    else let '(m, d) := _month_day (_is_leap y) t in (y, m, d).
Proof.
  intros Hy Ht.
  destruct (year_decompose (y - 1)) as (a & b & c & e & HY & Ha & Hb & Hc & He);
    [lia|].
  assert (y = 400 * a + 100 * b + 4 * c + e + 1) as -> by lia. clear HY Hy.
  rewrite is_leap_decomposed in * by assumption.
  rewrite days_before_year_decomposed by assumption.
  unfold _ord2ymd, _DI400Y, _DI100Y, _DI4Y. cbv zeta.
  replace (146097 * a + 36524 * b + 1461 * c + 365 * e + t + 1 - 1)
    with (146097 * a + (36524 * b + 1461 * c + 365 * e + t)) by lia.
  assert (0 <= 36524 * b + 1461 * c + 365 * e + t < 146097) as H400
    by leap_cases e c b Ht.
  destruct (divmod_unique _ 146097 a _ H400 eq_refl) as [-> ->].
  destruct (Z.eqb_spec t 365) as [->|Ht365].
  - (* the last day of a leap year *)
    assert (e = 3 /\ (c <> 24 \/ b = 3)) as [-> Hcb] by leap_cases e c b Ht.
    destruct (Z.eq_dec c 24) as [->|Hc24].
    + assert (b = 3) as -> by lia.
      change ((36524 * 3 + 1461 * 24 + 365 * 3 + 365) / 36524) with 4.
      change (4 =? 4) with true. rewrite orb_true_r. do 2 f_equal.
      change ((36524 * 3 + 1461 * 24 + 365 * 3 + 365) mod 36524) with 0.
      change (0 / 1461) with 0. change (0 mod 1461) with 0.
      change (0 / 365) with 0. lia.
    + assert (0 <= 1461 * c + 365 * 3 + 365 < 36524) as H100 by lia.
      destruct (divmod_unique (36524 * b + 1461 * c + 365 * 3 + 365)
                  36524 b _ H100 ltac:(lia)) as [-> ->].
      assert (0 <= 1460 < 1461) as H4 by lia.
      destruct (divmod_unique (1461 * c + 365 * 3 + 365) 1461 c _ H4
                  ltac:(lia)) as [-> ->].
      change (1460 / 365) with 4. change (4 =? 4) with true. cbn [orb].
      do 2 f_equal. lia.
  - assert (0 <= 1461 * c + 365 * e + t < 36524) as H100
      by leap_cases e c b Ht.
    destruct (divmod_unique (36524 * b + 1461 * c + 365 * e + t)
                36524 b _ H100 ltac:(lia)) as [-> ->].
    assert (0 <= 365 * e + t < 1461) as H4 by leap_cases e c b Ht.
    destruct (divmod_unique (1461 * c + 365 * e + t) 1461 c _ H4 ltac:(lia))
      as [-> ->].
    assert (0 <= t < 365) as H1 by leap_cases e c b Ht.
    destruct (divmod_unique (365 * e + t) 365 e _ H1 ltac:(lia)) as [-> ->].
    assert ((e =? 4) = false) as -> by (apply Z.eqb_neq; lia).
    assert ((b =? 4) = false) as -> by (apply Z.eqb_neq; lia).
    cbn [orb]. destruct (_month_day _ t) as [m d]. do 2 f_equal. lia.
Qed.

Lemma month_day_checked (leap : bool) (m d : Z) :
  1 <= m <= 12 -> 1 <= d <= 31 -> month_day_check leap m d = true.
Proof.
  intros Hm Hd.
  assert (month_day_check_all = true) as Hall by (vm_compute; reflexivity).
  unfold month_day_check_all in Hall.
  rewrite forallb_forall in Hall.
  assert (In leap [true; false]) as Hl by (destruct leap; simpl; auto).
  specialize (Hall leap Hl). rewrite forallb_forall in Hall.
  specialize (Hall (Z.to_nat m)). rewrite forallb_forall in Hall.
  rewrite <- (Z2Nat.id m), <- (Z2Nat.id d) by lia.
  apply Hall; apply in_seq; lia.
Qed.

Lemma days_in_month_table (y m : Z) :
  _days_in_month y m = _DAYS_IN_MONTH m + b2z ((m =? 2) && _is_leap y).
Proof.
  unfold _days_in_month.
  destruct (Z.eqb_spec m 2) as [->|]; cbn [andb b2z]; [|lia].
  destruct (_is_leap y); reflexivity.
Qed.

(** The facts the exhaustive check yields for a day of a month. *)
Lemma month_day_facts (y m d : Z) :
  1 <= m <= 12 -> 1 <= d <= _days_in_month y m ->
  let t := _days_before_month y m + d - 1 in
  0 <= t < 365 + b2z (_is_leap y) /\
  28 <= _days_in_month y m <= 31 /\
  (if t =? 365 then (y, 12, 31)
   else let '(m', d') := _month_day (_is_leap y) t in (y, m', d')) = (y, m, d).
Proof.
  intros Hm Hd t. subst t. rewrite days_in_month_table in *.
  unfold _days_before_month.
  assert (1 <= d <= 31) as Hd31.
  { assert (_DAYS_IN_MONTH m <= 31) by
      (assert (m = 1 \/ m = 2 \/ m = 3 \/ m = 4 \/ m = 5 \/ m = 6 \/ m = 7
               \/ m = 8 \/ m = 9 \/ m = 10 \/ m = 11 \/ m = 12) as Hc by lia;
       repeat (destruct Hc as [-> | Hc]); try subst m; cbn; lia).
    destruct ((m =? 2) && _is_leap y) eqn:E; cbn [b2z] in Hd; [|lia].
    apply andb_true_iff in E as [E _]. apply Z.eqb_eq in E. subst m.
    cbn in Hd. lia. }
  pose proof (month_day_checked (_is_leap y) m d Hm Hd31) as Hchk.
  unfold month_day_check in Hchk. cbv zeta in Hchk.
  destruct (Z.leb_spec d (_DAYS_IN_MONTH m + b2z ((m =? 2) && _is_leap y)));
    [|lia].
  cbn [implb] in Hchk.
  repeat (apply andb_true_iff in Hchk as [Hchk ?]).
  repeat split; try lia.
  destruct (_ =? 365).
  - apply andb_true_iff in H0 as [?%Z.eqb_eq ?%Z.eqb_eq]. congruence.
  - destruct (_month_day _ _) as [m' d'].
    apply andb_true_iff in H0 as [?%Z.eqb_eq ?%Z.eqb_eq]. congruence.
Qed.

(** [_ord2ymd] inverts [_ymd2ord] on every date of the calendar. *)
Lemma ord2ymd_ymd2ord (y m d : Z) :
  1 <= y -> 1 <= m <= 12 -> 1 <= d <= _days_in_month y m ->
  _ord2ymd (_ymd2ord y m d) = (y, m, d).
Proof.
  intros Hy Hm Hd.
  destruct (month_day_facts y m d Hm Hd) as (Ht & _ & Hmd).
  unfold _ymd2ord.
  replace (_days_before_year y + _days_before_month y m + d)
    with (_days_before_year y + (_days_before_month y m + d - 1) + 1) by lia.
  rewrite ord2ymd_year by assumption. exact Hmd.
Qed.

End Calendar.

Section MonthSpan.
Import datetime.

Ltac month_cases m :=
  let Hc := fresh "Hc" in
  assert (m = 1 \/ m = 2 \/ m = 3 \/ m = 4 \/ m = 5 \/ m = 6 \/ m = 7
          \/ m = 8 \/ m = 9 \/ m = 10 \/ m = 11 \/ m = 12) as Hc by lia;
  repeat (destruct Hc as [-> | Hc]); try subst m.

Lemma days_before_year_succ (y : Z) :
  1 <= y -> _days_before_year (y + 1) = _days_before_year y + 365 + b2z (_is_leap y).
Proof.
  intros Hy. unfold _days_before_year, _is_leap. cbv zeta.
  replace (y + 1 - 1) with y by lia.
  destruct (Z.eqb_spec (y mod 4) 0), (Z.eqb_spec (y mod 100) 0),
    (Z.eqb_spec (y mod 400) 0); cbn [andb orb negb b2z];
    Z.div_mod_to_equations; lia.
Qed.

Lemma days_before_month_succ (y m : Z) :
  1 <= m < 12 ->
  _days_before_month y (m + 1) = _days_before_month y m + _days_in_month y m.
Proof.
  intros Hm. unfold _days_before_month, _days_in_month.
  month_cases m; try lia; destruct (_is_leap y); reflexivity.
Qed.

Lemma days_before_month_last (y : Z) :
  _days_before_month y 12 + _days_in_month y 12 = 365 + b2z (_is_leap y).
Proof. unfold _days_before_month, _days_in_month. destruct (_is_leap y); reflexivity. Qed.

Lemma days_before_year_range (y : Z) :
  1 <= y <= 9999 -> 0 <= _days_before_year y /\ _days_before_year (y + 1) <= _MAXORDINAL.
Proof.
  intros Hy. unfold _days_before_year, _MAXORDINAL. cbv zeta.
  replace (y + 1 - 1) with y by lia.
  Z.div_mod_to_equations. lia.
Qed.

Lemma days_before_year_mono (y : Z) :
  1 <= y -> _days_before_year y + 365 <= _days_before_year (y + 1).
Proof.
  intros Hy. rewrite days_before_year_succ by lia.
  destruct (_is_leap y); cbn; lia.
Qed.

(** Every date of the years [1 .. 9999] has an ordinal [add_days] accepts. *)
Lemma ymd2ord_range (y m d : Z) :
  1 <= y <= 9999 -> 1 <= m <= 12 -> 1 <= d <= _days_in_month y m ->
  0 < _ymd2ord y m d <= _MAXORDINAL.
Proof.
  intros Hy Hm Hd.
  destruct (month_day_facts y m d Hm Hd) as (Ht & _ & _).
  pose proof (days_before_year_range y Hy) as [H0 Hmax].
  rewrite days_before_year_succ in Hmax by lia.
  unfold _ymd2ord. lia.
Qed.

Lemma is_leap_gregorian (y : Z) : _is_leap y = gregorian_leap y.
Proof.
  unfold _is_leap, gregorian_leap.
  destruct (Z.eqb_spec (y mod 4) 0), (Z.eqb_spec (y mod 100) 0),
    (Z.eqb_spec (y mod 400) 0); cbn; try reflexivity;
    exfalso; Z.div_mod_to_equations; lia.
Qed.

Lemma days_in_month_calendar (y m : Z) :
  1 <= m <= 12 -> _days_in_month y m = calendar_days y m.
Proof.
  intros Hm. unfold _days_in_month, calendar_days.
  rewrite is_leap_gregorian.
  month_cases m; cbn [Z.eqb Pos.eqb andb _DAYS_IN_MONTH]; reflexivity.
Qed.

Lemma check_date_fields_true (y m d : Z) :
  1 <= y <= 9999 -> 1 <= m <= 12 -> 1 <= d <= _days_in_month y m ->
  _check_date_fields y m d = true.
Proof.
  intros Hy Hm Hd. unfold _check_date_fields, MINYEAR, MAXYEAR.
  repeat (apply andb_true_iff; split); apply Z.leb_le; lia.
Qed.

Lemma new_ok (y m d : Z) :
  1 <= y <= 9999 -> 1 <= m <= 12 -> 1 <= d <= _days_in_month y m ->
  new y m d = Ok (Date y m d).
Proof.
  intros Hy Hm Hd. unfold new.
  destruct (month_day_facts y m d Hm Hd) as (_ & Hdim & _).
  assert (_fits_c_int y && _fits_c_int m && _fits_c_int d = true) as ->.
  { unfold _fits_c_int.
    repeat (apply andb_true_iff; split); apply Z.leb_le; lia. }
  cbn [negb]. rewrite check_date_fields_true by assumption.
  reflexivity.
Qed.

Lemma fromordinal_ymd2ord (y m d : Z) :
  1 <= y <= 9999 -> 1 <= m <= 12 -> 1 <= d <= _days_in_month y m ->
  fromordinal (_ymd2ord y m d) = Ok (Date y m d).
Proof.
  intros Hy Hm Hd. unfold fromordinal.
  rewrite ord2ymd_ymd2ord by lia. apply new_ok; assumption.
Qed.

(** Adding [i] days to the first of a month stays in the month while
    [i] is less than its length. *)
Lemma add_days_in_month (y m i : Z) :
  1 <= y <= 9999 -> 1 <= m <= 12 -> 0 <= i < _days_in_month y m ->
  add_days (Date y m 1) i = Ok (Date y m (i + 1)).
Proof.
  intros Hy Hm Hi. unfold add_days, toordinal. cbn [year month day].
  replace (_ymd2ord y m 1 + i) with (_ymd2ord y m (i + 1))
    by (unfold _ymd2ord; lia).
  pose proof (ymd2ord_range y m (i + 1) Hy Hm ltac:(lia)) as [Hlo Hhi].
  destruct (Z.ltb_spec 0 (_ymd2ord y m (i + 1))); [|lia].
  destruct (Z.leb_spec (_ymd2ord y m (i + 1)) _MAXORDINAL); [|lia].
  cbn [andb]. apply fromordinal_ymd2ord; lia.
Qed.

(** Four days past the 28th is a day of the following month. *)
Lemma ymd2ord_next_month (y m : Z) :
  1 <= y -> 1 <= m <= 12 ->
  let y' := if m =? 12 then y + 1 else y in
  let m' := if m =? 12 then 1 else m + 1 in
  _ymd2ord y m 28 + 4 = _ymd2ord y' m' (32 - _days_in_month y m) /\
  _ymd2ord y' m' 1 - _ymd2ord y m 1 = _days_in_month y m.
Proof.
  intros Hy Hm. cbv zeta. unfold _ymd2ord.
  destruct (Z.eqb_spec m 12) as [->|Hne].
  - rewrite days_before_year_succ by lia.
    pose proof (days_before_month_last y).
    change (_days_before_month (y + 1) 1) with (0 + b2z (false && _is_leap (y + 1))).
    cbn [andb b2z]. lia.
  - rewrite days_before_month_succ by lia. lia.
Qed.

(** Lines 130-132 on every month they can handle: the first day and the
    calendar length of the month. *)
Lemma month_span_in_range (y m : Z) :
  month_in_range y m ->
  month_span y m = Ok (Date y m 1, calendar_days y m).
Proof.
  intros (Hy & Hm & Hlast). unfold month_span.
  destruct (month_day_facts y m 1 Hm) as (_ & Hdim & _).
  { rewrite days_in_month_table.
    assert (28 <= _DAYS_IN_MONTH m) by (month_cases m; cbn; lia).
    destruct (_ && _); cbn; lia. }
  rewrite new_ok by lia. cbn [mbind result_bind].
  unfold replace_day. cbn [year month day].
  rewrite new_ok by lia. cbn [mbind result_bind].
  set (y' := if m =? 12 then y + 1 else y).
  set (m' := if m =? 12 then 1 else m + 1).
  destruct (ymd2ord_next_month y m ltac:(lia) Hm) as [Hnext Hlen].
  fold y' m' in Hnext, Hlen.
  assert (1 <= y' <= 9999 /\ 1 <= m' <= 12) as [Hy' Hm'].
  { subst y' m'. destruct (Z.eqb_spec m 12); lia. }
  clearbody y' m'.
  assert (28 <= _days_in_month y' m' <= 31) as Hdim'.
  { destruct (month_day_facts y' m' 1 Hm') as (_ & H & _); [|exact H].
    rewrite days_in_month_table.
    assert (28 <= _DAYS_IN_MONTH m') by (month_cases m'; cbn; lia).
    destruct (_ && _); cbn; lia. }
  unfold add_days, toordinal. cbn [year month day].
  rewrite Hnext.
  pose proof (ymd2ord_range y' m' (32 - _days_in_month y m) Hy' Hm' ltac:(lia))
    as [Hlo Hhi].
  destruct (Z.ltb_spec 0 (_ymd2ord y' m' (32 - _days_in_month y m))); [|lia].
  destruct (Z.leb_spec (_ymd2ord y' m' (32 - _days_in_month y m)) _MAXORDINAL);
    [|lia].
  cbn [andb]. rewrite fromordinal_ymd2ord by lia. cbn [mbind result_bind].
  cbn [year month day]. rewrite new_ok by lia. cbn [mbind result_bind].
  unfold sub_days, toordinal. cbn [year month day].
  rewrite Hlen, days_in_month_calendar by lia. reflexivity.
Qed.

End MonthSpan.

(** ** The rotation loops *)

Section Rotation.

Lemma hard_rule_has_flag (emp : Employee.doc) (key : string) :
  truthy (hard_rule emp key) = has_flag emp key.
Proof.
  unfold hard_rule, has_flag, dict_get.
  destruct (Employee.hard_rules emp) as [rules|]; simpl.
  - destruct (rules !! key); reflexivity.
  - rewrite lookup_empty. reflexivity.
Qed.

Lemma nth_rotation (i idx : nat) :
  nth ((i + idx) mod 3)%nat rotation "" = base_rotation i idx.
Proof.
  unfold base_rotation, rotation.
  pose proof (Nat.mod_upper_bound (i + idx) 3 ltac:(lia)) as Hlt.
  destruct ((i + idx) mod 3)%nat as [|[|[|n]]]; try reflexivity. lia.
Qed.

(** The loop body computes the rule table of the specification. *)
Lemma shift_of_spec (i idx : nat) (weekday : Z) (emp : Employee.doc) :
  shift_of i idx weekday emp = spec_shift i idx weekday emp.
Proof.
  unfold shift_of, spec_shift, friday_override, no_night_override.
  cbv zeta. rewrite nth_rotation, !hard_rule_has_flag. reflexivity.
Qed.

Lemma fold_left_append_imap {A B : Type} (g : nat -> A -> B) (l : list A) :
  forall (h : nat -> nat) (acc : list B),
    fold_left (fun acc '(idx, x) => acc ++ [g idx x])
      (imap (fun j x => (h j, x)) l) acc
    = acc ++ imap (fun j x => g (h j) x) l.
Proof.
  induction l as [|x l IH]; intros h acc; cbn [imap fold_left].
  - rewrite app_nil_r. reflexivity.
  - change (fun j x0 => (h j, x0)) with (fun j (x0 : A) => (h j, x0)).
    specialize (IH (h ∘ S) (acc ++ [g (h 0%nat) x])).
    unfold compose in *. rewrite IH, <- app_assoc. reflexivity.
Qed.

Lemma employees_loop_spec (d : datetime.date) (i : nat)
    (employees : list Employee.doc) (acc : list DailyAssignment.t) :
  employees_loop d i employees acc = acc ++ imap (entry_on d i) employees.
Proof.
  unfold employees_loop, enumerate.
  etransitivity.
  { exact (fold_left_append_imap
             (fun idx emp =>
                {| DailyAssignment.date := datetime.isoformat d;
                   DailyAssignment.employee_id := Employee._id emp;
                   DailyAssignment.shift :=
                     shift_of i idx (datetime.weekday d) emp |})
             employees (fun j => j) acc). }
  f_equal. apply imap_ext. intros idx emp _. unfold entry_on.
  rewrite shift_of_spec. reflexivity.
Qed.

Lemma days_loop_spec (start : datetime.date) (dt : nat -> datetime.date)
    (employees : list Employee.doc) (offsets : list nat) :
  (forall i, In i offsets -> datetime.add_days start (Z.of_nat i) = Ok (dt i)) ->
  forall acc,
    days_loop start offsets employees acc
    = Ok (acc ++ flat_map (fun i => imap (entry_on (dt i) i) employees) offsets).
Proof.
  induction offsets as [|i offsets IH]; intros Hdt acc; cbn [days_loop flat_map].
  - rewrite app_nil_r. reflexivity.
  - rewrite (Hdt i) by (left; reflexivity). cbn [mbind result_bind].
    rewrite IH by (intros j Hj; apply Hdt; right; exact Hj).
    rewrite employees_loop_spec, <- app_assoc. reflexivity.
Qed.

(** On every month in range the handler's loops build the roster. *)
Lemma build_assignments_in_range (y m : Z) (employees : list Employee.doc) :
  month_in_range y m ->
  build_assignments y m employees = Ok (roster y m employees).
Proof.
  intros Hr. unfold build_assignments.
  rewrite (month_span_in_range y m Hr). cbn [mbind result_bind].
  rewrite (days_loop_spec _ (day_of y m)).
  - reflexivity.
  - intros i Hi. apply in_seq in Hi. destruct Hr as (Hy & Hm & _).
    unfold day_of. apply add_days_in_month; try assumption.
    rewrite days_in_month_calendar by assumption. lia.
Qed.

Lemma length_flat_map_const {A B : Type} (f : A -> list B) (n : nat) (l : list A) :
  (forall x, length (f x) = n) -> length (flat_map f l) = (length l * n)%nat.
Proof.
  intros Hf. induction l as [|x l IH]; cbn [flat_map length]; [reflexivity|].
  rewrite length_app, Hf, IH. lia.
Qed.

Lemma lookup_flat_map_seq {B : Type} (f : nat -> list B) (n : nat) :
  (forall i, length (f i) = n) ->
  forall (count s i idx : nat),
    (i < count)%nat -> (idx < n)%nat ->
    flat_map f (seq s count) !! (i * n + idx)%nat = f (s + i)%nat !! idx.
Proof.
  intros Hf. induction count as [|count IH]; intros s i idx Hi Hidx; [lia|].
  cbn [seq flat_map]. destruct i as [|i].
  - rewrite lookup_app_l by (rewrite Hf; lia).
    rewrite Nat.add_0_r. reflexivity.
  - rewrite lookup_app_r by (rewrite Hf; lia).
    rewrite Hf. replace (S i * n + idx - n)%nat with (i * n + idx)%nat by lia.
    rewrite IH by lia. f_equal. f_equal. lia.
Qed.

Lemma roster_length (y m : Z) (employees : list Employee.doc) :
  length (roster y m employees)
  = (Z.to_nat (calendar_days y m) * length employees)%nat.
Proof.
  unfold roster.
  rewrite (length_flat_map_const _ (length employees)).
  - rewrite length_seq. reflexivity.
  - intros i. apply length_imap.
Qed.

Lemma roster_lookup (y m : Z) (employees : list Employee.doc)
    (i idx : nat) (emp : Employee.doc) :
  (i < Z.to_nat (calendar_days y m))%nat ->
  employees !! idx = Some emp ->
  roster y m employees !! (i * length employees + idx)%nat
  = Some (entry_of y m i idx emp).
Proof.
  intros Hi Hemp. unfold roster.
  rewrite (lookup_flat_map_seq _ (length employees)).
  - cbn [Nat.add]. rewrite list_lookup_imap, Hemp. reflexivity.
  - intros j. apply length_imap.
  - exact Hi.
  - apply lookup_lt_Some in Hemp. exact Hemp.
Qed.

Lemma elem_of_roster (y m : Z) (employees : list Employee.doc)
    (a : DailyAssignment.t) :
  In a (roster y m employees) <->
  exists i idx emp, (i < Z.to_nat (calendar_days y m))%nat /\
    employees !! idx = Some emp /\ a = entry_of y m i idx emp.
Proof.
  unfold roster. rewrite in_flat_map. split.
  - intros (i & Hi & Ha). apply in_seq in Hi.
    apply list_elem_of_In, elem_of_lookup_imap in Ha as (idx & emp & -> & Hemp).
    exists i, idx, emp. repeat split; [lia | assumption].
  - intros (i & idx & emp & Hi & Hemp & ->). exists i. split.
    + apply in_seq. lia.
    + apply list_elem_of_In, elem_of_lookup_imap. eauto.
Qed.

End Rotation.

(** ** ISO dates *)

Section IsoFormat.
Import datetime.

Lemma digit_inj (a b : Z) :
  0 <= a <= 9 -> 0 <= b <= 9 -> digit a = digit b -> a = b.
Proof.
  intros Ha Hb H. unfold digit in H.
  apply (f_equal N_of_ascii) in H.
  rewrite !N_ascii_embedding in H by lia. lia.
Qed.

Lemma fmt_02d_inj (a b : Z) :
  0 <= a <= 99 -> 0 <= b <= 99 -> fmt_02d a = fmt_02d b -> a = b.
Proof.
  intros Ha Hb H. unfold fmt_02d in H. injection H as H1 H0.
  apply digit_inj in H1; [|Z.div_mod_to_equations; lia..].
  apply digit_inj in H0; [|Z.div_mod_to_equations; lia..].
  Z.div_mod_to_equations. lia.
Qed.

Lemma fmt_04d_inj (a b : Z) :
  0 <= a <= 9999 -> 0 <= b <= 9999 -> fmt_04d a = fmt_04d b -> a = b.
Proof.
  intros Ha Hb H. unfold fmt_04d in H. injection H as H3 H2 H1 H0.
  apply digit_inj in H3; [|Z.div_mod_to_equations; lia..].
  apply digit_inj in H2; [|Z.div_mod_to_equations; lia..].
  apply digit_inj in H1; [|Z.div_mod_to_equations; lia..].
  apply digit_inj in H0; [|Z.div_mod_to_equations; lia..].
  Z.div_mod_to_equations. lia.
Qed.

(** Dates the constructor accepts are told apart by their ISO text. *)
Lemma isoformat_inj (d1 d2 : date) :
  0 <= year d1 <= 9999 -> 0 <= month d1 <= 99 -> 0 <= day d1 <= 99 ->
  0 <= year d2 <= 9999 -> 0 <= month d2 <= 99 -> 0 <= day d2 <= 99 ->
  isoformat d1 = isoformat d2 -> d1 = d2.
Proof.
  destruct d1 as [y1 m1 dd1], d2 as [y2 m2 dd2]. cbn [year month day].
  intros Hy1 Hm1 Hd1 Hy2 Hm2 Hd2 H.
  unfold isoformat in H. cbn [year month day] in H.
  assert (fmt_04d y1 = fmt_04d y2 /\ fmt_02d m1 = fmt_02d m2
          /\ fmt_02d dd1 = fmt_02d dd2) as (Hy & Hm & Hd).
  { unfold fmt_04d, fmt_02d in *. cbn [String.append] in H.
    injection H as -> -> -> -> -> -> -> ->. auto. }
  apply fmt_04d_inj in Hy; [|assumption..].
  apply fmt_02d_inj in Hm; [|assumption..].
  apply fmt_02d_inj in Hd; [|assumption..].
  subst. reflexivity.
Qed.

Lemma new_fields (y m d : Z) (dt : date) :
  new y m d = Ok dt ->
  dt = Date y m d /\ 1 <= y <= 9999 /\ 1 <= m <= 12 /\ 1 <= d <= 31.
Proof.
  unfold new.
  destruct (negb (_fits_c_int y && _fits_c_int m && _fits_c_int d));
    [discriminate|].
  destruct (_check_date_fields y m d) eqn:E; [|discriminate].
  intros [= <-]. unfold _check_date_fields, MINYEAR, MAXYEAR in E.
  repeat (apply andb_true_iff in E as [E ?]).
  repeat match goal with H : (_ <=? _) = true |- _ => apply Z.leb_le in H end.
  assert (_days_in_month y m <= 31).
  { destruct (month_day_facts y m 1 ltac:(lia)) as (_ & Hdim & _); lia. }
  repeat split; lia.
Qed.

End IsoFormat.

(** ** The handler *)

Section Handler.

(** The last month of [MAXYEAR]: four days past its 28th is no date. *)
Lemma month_span_december_9999 : month_span 9999 12 = Raise OverflowError.
Proof. vm_compute. reflexivity. Qed.

Lemma month_span_ok_in_range (y m : Z) (p : datetime.date * Z) :
  month_span y m = Ok p -> month_in_range y m.
Proof.
  intros H.
  assert (1 <= y <= 9999 /\ 1 <= m <= 12) as [Hy Hm].
  { unfold month_span in H.
    destruct (datetime.new y m 1) as [start|e] eqn:Hnew; [|discriminate].
    apply new_fields in Hnew as (_ & Hy & Hm & _). split; assumption. }
  repeat split; try lia.
  intros -> ->. rewrite month_span_december_9999 in H. discriminate.
Qed.

Lemma build_assignments_ok (y m : Z) (employees : list Employee.doc)
    (l : list DailyAssignment.t) :
  build_assignments y m employees = Ok l ->
  month_in_range y m /\ l = roster y m employees.
Proof.
  intros H.
  assert (month_in_range y m) as Hr.
  { unfold build_assignments in H.
    destruct (month_span y m) as [p|e] eqn:Hspan; [|discriminate].
    exact (month_span_ok_in_range y m p Hspan). }
  split; [exact Hr|].
  rewrite (build_assignments_in_range y m employees Hr) in H.
  congruence.
Qed.

Lemma generate_schedule_empty (db : Db) (now : Z) (oid : string)
    (body : GenerateRequest.t) :
  find_employees db (GenerateRequest.department_id body) = [] ->
  generate_schedule db now oid body
  = (db, Raise (HTTPException 400 "No employees in department")).
Proof. intros H. unfold generate_schedule. rewrite H. reflexivity. Qed.

Lemma generate_schedule_in_range (db : Db) (now : Z) (oid : string)
    (body : GenerateRequest.t) :
  let employees := find_employees db (GenerateRequest.department_id body) in
  let l := roster (GenerateRequest.year body) (GenerateRequest.month body)
             employees in
  employees <> [] ->
  month_in_range (GenerateRequest.year body) (GenerateRequest.month body) ->
  generate_schedule db now oid body
  = (insert_schedule db (schedule_doc_of now oid body l),
     Ok {| GenerateResponse.id := oid; GenerateResponse.assignments := l |}).
Proof.
  intros employees l Hne Hr. unfold generate_schedule. fold employees.
  destruct employees as [|e es] eqn:E; [congruence|].
  rewrite (build_assignments_in_range _ _ _ Hr). reflexivity.
Qed.

Lemma generate_schedule_ok (db : Db) (now : Z) (oid : string)
    (body : GenerateRequest.t) (resp : GenerateResponse.t) :
  let employees := find_employees db (GenerateRequest.department_id body) in
  snd (generate_schedule db now oid body) = Ok resp ->
  employees <> [] /\
  month_in_range (GenerateRequest.year body) (GenerateRequest.month body) /\
  GenerateResponse.assignments resp
  = roster (GenerateRequest.year body) (GenerateRequest.month body) employees.
Proof.
  intros employees H. unfold generate_schedule in H. fold employees in H.
  destruct employees as [|e es] eqn:E; [discriminate|].
  destruct (build_assignments _ _ (e :: es)) as [l|ex] eqn:Hb; [|discriminate].
  apply build_assignments_ok in Hb as [Hr ->].
  cbn [snd] in H. injection H as <-. cbn [GenerateResponse.assignments].
  repeat split; [discriminate | apply Hr..].
Qed.

(** An exception leaves the store as it was. *)
Lemma generate_schedule_raise (db : Db) (now : Z) (oid : string)
    (body : GenerateRequest.t) (e : exn) :
  snd (generate_schedule db now oid body) = Raise e ->
  fst (generate_schedule db now oid body) = db.
Proof.
  unfold generate_schedule.
  destruct (find_employees db _) as [|e0 es]; [reflexivity|].
  destruct (build_assignments _ _ _); [discriminate | reflexivity].
Qed.

End Handler.

(** ** The rule table *)

Section RuleTable.

Lemma base_rotation_cases (i idx : nat) :
  base_rotation i idx = "D" \/ base_rotation i idx = "E"
  \/ base_rotation i idx = "N".
Proof.
  unfold base_rotation. destruct ((i + idx) mod 3)%nat as [|[|n]]; auto.
Qed.

Lemma rotation_table_lookup (i idx : nat) :
  ["D"; "E"; "N"] !! ((i + idx) mod 3)%nat = Some (base_rotation i idx).
Proof.
  unfold base_rotation.
  pose proof (Nat.mod_upper_bound (i + idx) 3 ltac:(lia)) as Hlt.
  destruct ((i + idx) mod 3)%nat as [|[|[|n]]]; try reflexivity. lia.
Qed.

Lemma overrides_working (emp : Employee.doc) (weekday : Z) (s : string) :
  In s ["D"; "E"; "N"] ->
  In (friday_override emp weekday (no_night_override emp s)) ["D"; "E"; "N"].
Proof.
  intros Hs. unfold friday_override, no_night_override.
  destruct (has_flag emp "no_night" && String.eqb s "N");
    destruct (_ && _ && _); cbn; auto.
Qed.

Lemma spec_shift_no_night (i idx : nat) (weekday : Z) (emp : Employee.doc) :
  has_flag emp "no_night" = true -> spec_shift i idx weekday emp <> "N".
Proof.
  intros Hflag. unfold spec_shift, friday_override, no_night_override.
  rewrite Hflag.
  destruct ((i + idx) mod 7 =? 6)%nat; [discriminate|].
  destruct (base_rotation_cases i idx) as [-> | [-> | ->]]; cbn;
    destruct (has_flag emp "no_after_16_friday" && (weekday =? 4));
    cbn; discriminate.
Qed.

Lemma spec_shift_friday (i idx : nat) (emp : Employee.doc) :
  has_flag emp "no_after_16_friday" = true ->
  spec_shift i idx 4 emp <> "E" /\ spec_shift i idx 4 emp <> "N".
Proof.
  intros Hflag. unfold spec_shift, friday_override, no_night_override.
  rewrite Hflag.
  destruct ((i + idx) mod 7 =? 6)%nat; [split; discriminate|].
  destruct (base_rotation_cases i idx) as [-> | [-> | ->]];
    destruct (has_flag emp "no_night"); cbn; split; discriminate.
Qed.

Lemma spec_shift_off_iff (i idx : nat) (weekday : Z) (emp : Employee.doc) :
  spec_shift i idx weekday emp = "OFF" <-> ((i + idx) mod 7 = 6)%nat.
Proof.
  unfold spec_shift. destruct (Nat.eqb_spec ((i + idx) mod 7) 6) as [H|H].
  - split; [intros _; exact H | reflexivity].
  - split; [|intros H'; contradiction].
    intros Hoff. exfalso.
    assert (In (base_rotation i idx) ["D"; "E"; "N"]) as Hb.
    { destruct (base_rotation_cases i idx) as [-> | [-> | ->]]; cbn; auto. }
    pose proof (overrides_working emp weekday _ Hb) as Hw.
    rewrite Hoff in Hw. cbn in Hw. intuition discriminate.
Qed.

Lemma roster_follows_rule_table (y m : Z) (employees : list Employee.doc) :
  follows_rule_table employees y m (roster y m employees).
Proof.
  intros i idx emp Hi Hemp.
  exists (entry_of y m i idx emp). split; [apply roster_lookup; assumption|].
  unfold entry_of, entry_on. cbn [DailyAssignment.shift]. unfold spec_shift.
  destruct ((i + idx) mod 7 =? 6)%nat; [reflexivity|].
  exists (base_rotation i idx). split; [apply rotation_table_lookup|].
  split; [reflexivity|].
  apply overrides_working.
  destruct (base_rotation_cases i idx) as [-> | [-> | ->]]; cbn; auto.
Qed.

End RuleTable.

(** ** The shape of the roster *)

Section Shape.

Lemma calendar_days_range (y m : Z) : 28 <= calendar_days y m <= 31.
Proof.
  unfold calendar_days.
  destruct m as [|p|p]; try lia.
  do 4 (try destruct p as [p|p|]); try lia;
    destruct (gregorian_leap y); lia.
Qed.

Lemma day_of_fields (y m : Z) (i : nat) :
  month_in_range y m -> (i < Z.to_nat (calendar_days y m))%nat ->
  0 <= datetime.year (day_of y m i) <= 9999 /\
  0 <= datetime.month (day_of y m i) <= 99 /\
  0 <= datetime.day (day_of y m i) <= 99.
Proof.
  intros (Hy & Hm & _) Hi. pose proof (calendar_days_range y m).
  unfold day_of. cbn. lia.
Qed.

Lemma day_of_iso_inj (y m : Z) (i j : nat) :
  month_in_range y m ->
  (i < Z.to_nat (calendar_days y m))%nat ->
  (j < Z.to_nat (calendar_days y m))%nat ->
  datetime.isoformat (day_of y m i) = datetime.isoformat (day_of y m j) ->
  i = j.
Proof.
  intros Hr Hi Hj H.
  destruct (day_of_fields y m i Hr Hi) as (? & ? & ?).
  destruct (day_of_fields y m j Hr Hj) as (? & ? & ?).
  apply isoformat_inj in H; try assumption.
  unfold day_of in H. injection H as H. lia.
Qed.

(** What the roster holds at position [k]. *)
Lemma roster_lookup_index (y m : Z) (employees : list Employee.doc) (k : nat) :
  let D := Z.to_nat (calendar_days y m) in
  let E := length employees in
  (k < D * E)%nat ->
  (k / E < D)%nat /\ (k mod E < E)%nat /\
  exists emp, employees !! (k mod E)%nat = Some emp /\
    roster y m employees !! k = Some (entry_of y m (k / E) (k mod E) emp).
Proof.
  intros D E Hk.
  assert (E <> 0)%nat as HE by lia.
  assert (k mod E < E)%nat as Hidx by (apply Nat.mod_upper_bound; exact HE).
  assert (k / E < D)%nat as Hi.
  { apply Nat.Div0.div_lt_upper_bound. lia. }
  repeat split; try assumption.
  destruct (lookup_lt_is_Some_2 employees (k mod E)%nat Hidx) as [emp Hemp].
  exists emp. split; [exact Hemp|].
  rewrite <- (roster_lookup y m employees (k / E) (k mod E) emp Hi Hemp).
  f_equal. fold E. pose proof (Nat.div_mod_eq k E). lia.
Qed.

(** Documents with distinct identifiers are told apart by them. *)
Lemma employee_of_id (employees : list Employee.doc) (idx : nat)
    (emp emp' : Employee.doc) :
  NoDup (Employee._id <$> employees) ->
  employees !! idx = Some emp' -> In emp employees ->
  Employee._id emp' = Employee._id emp -> emp' = emp.
Proof.
  intros Hnd Hidx Hin Hid.
  apply list_elem_of_In, list_elem_of_lookup in Hin as [j Hj].
  assert (idx = j) as ->.
  { apply (proj1 (NoDup_alt _) Hnd idx j (Employee._id emp)).
    - rewrite list_lookup_fmap, Hidx. cbn. congruence.
    - rewrite list_lookup_fmap, Hj. reflexivity. }
  congruence.
Qed.

Lemma roster_has_shape (y m : Z) (employees : list Employee.doc) :
  month_in_range y m ->
  roster_shape employees y m (roster y m employees).
Proof.
  intros Hr. unfold roster_shape. cbv zeta.
  split; [apply roster_length|]. split; [|split].
  - intros k Hk.
    destruct (roster_lookup_index y m employees k Hk)
      as (_ & _ & emp & Hemp & Hlook).
    exists (entry_of y m (k / length employees) (k mod length employees) emp), emp.
    repeat split; assumption.
  - intros i idx emp Hi Hemp. exists (entry_of y m i idx emp).
    split; [apply roster_lookup; assumption | reflexivity].
  - intros Hnd. apply NoDup_alt. intros k1 k2 x H1 H2.
    rewrite list_lookup_fmap in H1, H2.
    assert (k1 < Z.to_nat (calendar_days y m) * length employees)%nat as Hk1.
    { rewrite <- roster_length. apply lookup_lt_is_Some.
      destruct (roster y m employees !! k1); [eauto | discriminate]. }
    assert (k2 < Z.to_nat (calendar_days y m) * length employees)%nat as Hk2.
    { rewrite <- roster_length. apply lookup_lt_is_Some.
      destruct (roster y m employees !! k2); [eauto | discriminate]. }
    destruct (roster_lookup_index y m employees k1 Hk1)
      as (Hi1 & _ & emp1 & Hemp1 & Hl1).
    destruct (roster_lookup_index y m employees k2 Hk2)
      as (Hi2 & _ & emp2 & Hemp2 & Hl2).
    rewrite Hl1 in H1. rewrite Hl2 in H2.
    set (e1 := entry_of y m (k1 / length employees)%nat
                 (k1 mod length employees)%nat emp1) in *.
    set (e2 := entry_of y m (k2 / length employees)%nat
                 (k2 mod length employees)%nat emp2) in *.
    assert (slot e1 = slot e2) as Hslot.
    { change (Some (slot e1) = Some x) in H1.
      change (Some (slot e2) = Some x) in H2. congruence. }
    subst e1 e2.
    unfold slot, entry_of, entry_on in Hslot.
    cbn [DailyAssignment.date DailyAssignment.employee_id] in Hslot.
    apply pair_equal_spec in Hslot as [Hdate Hid].
    apply day_of_iso_inj in Hdate; try assumption.
    assert (k1 mod length employees = k2 mod length employees)%nat as Hidx.
    { apply (proj1 (NoDup_alt _) Hnd _ _ (Employee._id emp1)).
      - rewrite list_lookup_fmap, Hemp1. reflexivity.
      - rewrite list_lookup_fmap, Hemp2. cbn. congruence. }
    pose proof (Nat.div_mod_eq k1 (length employees)).
    pose proof (Nat.div_mod_eq k2 (length employees)).
    rewrite Hdate, Hidx in *. lia.
Qed.

End Shape.

(** ** Fields the rotation does not read *)

Section Independence.

Lemma imap_ext_Forall2 {A B : Type} (R : A -> A -> Prop) (l1 l2 : list A) :
  Forall2 R l1 l2 ->
  forall f g : nat -> A -> B,
    (forall j x y, R x y -> f j x = g j y) -> imap f l1 = imap g l2.
Proof.
  induction 1 as [|x y l1 l2 Hxy Hl IH]; intros f g Hfg; cbn [imap].
  - reflexivity.
  - f_equal; [apply Hfg; exact Hxy|].
    apply IH. intros j a b Hab. apply Hfg. exact Hab.
Qed.

Lemma has_flag_ext (e1 e2 : Employee.doc) (key : string) :
  same_identity_and_rules e1 e2 -> has_flag e1 key = has_flag e2 key.
Proof. intros [_ Hrules]. unfold has_flag. rewrite Hrules. reflexivity. Qed.

Lemma entry_on_ext (d : datetime.date) (i idx : nat) (e1 e2 : Employee.doc) :
  same_identity_and_rules e1 e2 -> entry_on d i idx e1 = entry_on d i idx e2.
Proof.
  intros H. unfold entry_on, spec_shift, friday_override, no_night_override.
  rewrite !(has_flag_ext e1 e2 _ H). destruct H as [-> _]. reflexivity.
Qed.

Lemma roster_ext (y m : Z) (l1 l2 : list Employee.doc) :
  Forall2 same_identity_and_rules l1 l2 -> roster y m l1 = roster y m l2.
Proof.
  intros H. unfold roster. apply flat_map_ext. intros i.
  apply (imap_ext_Forall2 same_identity_and_rules l1 l2 H).
  intros j e1 e2 He. apply entry_on_ext. exact He.
Qed.

Lemma build_assignments_ext (y m : Z) (l1 l2 : list Employee.doc) :
  Forall2 same_identity_and_rules l1 l2 ->
  build_assignments y m l1 = build_assignments y m l2.
Proof.
  intros H. destruct (month_span y m) as [p|e] eqn:Hspan.
  - pose proof (month_span_ok_in_range y m p Hspan) as Hr.
    rewrite !build_assignments_in_range by exact Hr.
    f_equal. apply roster_ext. exact H.
  - unfold build_assignments. rewrite Hspan. reflexivity.
Qed.

End Independence.

(** ** The keyword matcher *)

Section Matcher.

Lemma startswith_spec (p s : string) :
  startswith s p = true <-> exists post, s = (p ++ post)%string.
Proof.
  revert s. induction p as [|a p IH]; intros s.
  - destruct s; cbn [startswith]; split; eauto.
  - destruct s as [|b s]; cbn [startswith].
    + split; [discriminate | intros [post H]; discriminate].
    + rewrite andb_true_iff, IH. split.
      * intros [Hab [post ->]]. apply Ascii.eqb_eq in Hab as ->.
        exists post. reflexivity.
      * intros [post H]. cbn in H. injection H as -> ->.
        split; [apply Ascii.eqb_refl | eauto].
Qed.

(** [sub in s] holds exactly when [sub] occurs in [s]. *)
Lemma str_contains_spec (sub s : string) :
  str_contains sub s = true <-> occurs_in sub s.
Proof.
  unfold occurs_in. induction s as [|c s IH]; cbn [str_contains].
  - rewrite orb_false_r, startswith_spec. split.
    + intros [post H]. exists EmptyString, post. exact H.
    + intros (pre & post & H). destruct pre; [|discriminate].
      exists post. exact H.
  - rewrite orb_true_iff, startswith_spec, IH. split.
    + intros [[post H] | (pre & post & H)].
      * exists EmptyString, post. exact H.
      * exists (String c pre), post. cbn. rewrite H. reflexivity.
    + intros (pre & post & H). destruct pre as [|c' pre].
      * left. exists post. exact H.
      * right. cbn in H. injection H as _ H. eauto.
Qed.

Lemma contains_any2 (a b t : string) :
  str_contains a t || str_contains b t = true <->
  occurs_in a t \/ occurs_in b t.
Proof. rewrite orb_true_iff, !str_contains_spec. reflexivity. Qed.

Lemma contains_any3 (a b c t : string) :
  str_contains a t || str_contains b t || str_contains c t = true <->
  occurs_in a t \/ occurs_in b t \/ occurs_in c t.
Proof. rewrite !orb_true_iff, !str_contains_spec. tauto. Qed.

End Matcher.

(** ** Worked examples *)

Section Examples.

(** Day offset 6 is the rest day of the employee at position 0, and day
    offset 0 its Day shift. *)
Example rest_day_of_first_employee :
  shift_of 6 0 2 (employee "e0" "ward" None) = "OFF" /\
  shift_of 0 0 3 (employee "e0" "ward" None) = "D".
Proof. split; reflexivity. Qed.

(** With "no_night" set, the Night of day offset 2 becomes Day. *)
Example night_overridden_to_day :
  shift_of 2 0 0 (employee "e0" "ward" None) = "N" /\
  shift_of 2 0 0 (employee "e0" "ward" (Some both_rules)) = "D".
Proof. split; vm_compute; reflexivity. Qed.

Example february_lengths :
  month_span 2024 2 = Ok (datetime.Date 2024 2 1, 29) /\
  month_span 2023 2 = Ok (datetime.Date 2023 2 1, 28) /\
  month_span 1900 2 = Ok (datetime.Date 1900 2 1, 28) /\
  month_span 2000 2 = Ok (datetime.Date 2000 2 1, 29).
Proof. repeat split; vm_compute; reflexivity. Qed.

(** What the date constructor refuses: a month or a year out of range
    with [ValueError], an argument beyond a C [int] with [OverflowError]. *)
Example date_constructor_refusals :
  datetime.new 2024 13 1 = Raise ValueError /\
  datetime.new 10000 1 1 = Raise ValueError /\
  datetime.new 2147483648 1 1 = Raise OverflowError.
Proof. repeat split; vm_compute; reflexivity. Qed.

Example weekday_of_first_march_2024 :
  datetime.weekday (datetime.Date 2024 3 1) = 4 /\
  datetime.isoformat (datetime.Date 2024 3 1) = "2024-03-01".
Proof. split; vm_compute; reflexivity. Qed.

Example interpret_norwegian_text :
  let r := interpret_preferences ascii_lower
             "Jeg kan IKKE NATT, helst Dagvakt" in
  PreferenceInterpretation.hard_rules r !! "no_night" = Some (PyBool true) /\
  PreferenceInterpretation.hard_rules r !! "no_after_16_friday" = None /\
  PreferenceInterpretation.soft_preferences r !! "prefer_day"
  = Some (PyFloat float_one) /\
  PreferenceInterpretation.soft_preferences r !! "prefer_evening" = None.
Proof. repeat split; vm_compute; reflexivity. Qed.

End Examples.

(** * The claims *)

Section Claims.

(** C1. For a staffed department and any month in range the run succeeds;
    and in the output of every successful run, for every day offset [i]
    and every employee at position [idx], the entry at [i * E + idx] has
    shift Off when [(i + idx) mod 7 = 6]; otherwise its shift is the
    table Day, Evening, Night indexed at [(i + idx) mod 3] with the
    no-night and Friday overrides applied, and is one of D, E, N. *)
Theorem rotation_follows_rule_table (db : Db) (now : Z) (oid : string)
    (body : GenerateRequest.t) :
  (find_employees db (GenerateRequest.department_id body) <> [] ->
   month_in_range (GenerateRequest.year body) (GenerateRequest.month body) ->
   exists resp, snd (generate_schedule db now oid body) = Ok resp) /\
  (forall resp,
     snd (generate_schedule db now oid body) = Ok resp ->
     follows_rule_table
       (find_employees db (GenerateRequest.department_id body))
       (GenerateRequest.year body) (GenerateRequest.month body)
       (GenerateResponse.assignments resp)).
Proof.
  split.
  - intros Hne Hr.
    rewrite (generate_schedule_in_range db now oid body Hne Hr).
    eexists. reflexivity.
  - intros resp Hok. apply generate_schedule_ok in Hok as (_ & _ & ->).
    apply roster_follows_rule_table.
Qed.

Lemma rotation_follows_rule_table_witness :
  exists resp,
    snd (generate_schedule ward_db 0 "s1" (request "ward" 2024 3)) = Ok resp /\
    follows_rule_table (find_employees ward_db "ward") 2024 3
      (GenerateResponse.assignments resp).
Proof.
  destruct (rotation_follows_rule_table ward_db 0 "s1" (request "ward" 2024 3))
    as [Hruns Htable].
  destruct Hruns as [resp Hresp].
  - vm_compute. discriminate.
  - unfold month_in_range. cbn. lia.
  - exists resp. split; [exact Hresp | exact (Htable resp Hresp)].
Defined.

(** C2. At December of year 9999, a month of 31 days, the day count of
    lines 130-132 is not computed: four days past the 28th overflows the
    date range and the run ends with [OverflowError]. *)
Theorem december_9999_overflows :
  calendar_days 9999 12 = 31 /\
  month_span 9999 12 = Raise OverflowError /\
  generate_schedule ward_db 0 "s1" (request "ward" 9999 12)
  = (ward_db, Raise OverflowError).
Proof. repeat split; vm_compute; reflexivity. Qed.

(** C3. In the output of a run, no entry of an employee whose hard rules
    hold a true value under "no_night" has shift N. *)
Theorem no_night_never_night (db : Db) (now : Z) (oid : string)
    (body : GenerateRequest.t) (resp : GenerateResponse.t)
    (emp : Employee.doc) (a : DailyAssignment.t) :
  snd (generate_schedule db now oid body) = Ok resp ->
  NoDup (Employee._id <$>
           find_employees db (GenerateRequest.department_id body)) ->
  In emp (find_employees db (GenerateRequest.department_id body)) ->
  has_flag emp "no_night" = true ->
  In a (GenerateResponse.assignments resp) ->
  DailyAssignment.employee_id a = Employee._id emp ->
  DailyAssignment.shift a <> "N".
Proof.
  intros Hok Hnd Hin Hflag Ha Hid.
  apply generate_schedule_ok in Hok as (_ & Hr & Hl). rewrite Hl in Ha.
  apply elem_of_roster in Ha as (i & idx & emp' & Hi & Hemp & ->).
  unfold entry_of, entry_on in *.
  cbn [DailyAssignment.employee_id DailyAssignment.shift] in *.
  assert (emp' = emp) as -> by (eapply employee_of_id; eauto).
  apply spec_shift_no_night. exact Hflag.
Qed.

Lemma no_night_never_night_witness :
  DailyAssignment.shift
    {| DailyAssignment.date := "2024-03-01";
       DailyAssignment.employee_id := "e2";
       DailyAssignment.shift := "D" |} <> "N".
Proof.
  refine (no_night_never_night ward_db 0 "s1" (request "ward" 2024 3)
            {| GenerateResponse.id := "s1";
               GenerateResponse.assignments := roster 2024 3 ward |}
            (employee "e2" "ward" (Some both_rules)) _ _ _ _ _ _ _).
  - vm_compute. reflexivity.
  - apply (bool_decide_unpack _). vm_compute. exact I.
  - vm_compute. tauto.
  - vm_compute. reflexivity.
  - vm_compute. tauto.
  - reflexivity.
Defined.

(** C4. In the output of a run, no entry of an employee whose hard rules
    hold a true value under "no_after_16_friday" that falls on a Friday
    has shift E or N. *)
Theorem friday_rule_no_late_shift (db : Db) (now : Z) (oid : string)
    (body : GenerateRequest.t) (resp : GenerateResponse.t)
    (emp : Employee.doc) (a : DailyAssignment.t)
    (y' m' d' : Z) (dt : datetime.date) :
  snd (generate_schedule db now oid body) = Ok resp ->
  NoDup (Employee._id <$>
           find_employees db (GenerateRequest.department_id body)) ->
  In emp (find_employees db (GenerateRequest.department_id body)) ->
  has_flag emp "no_after_16_friday" = true ->
  In a (GenerateResponse.assignments resp) ->
  DailyAssignment.employee_id a = Employee._id emp ->
  datetime.new y' m' d' = Ok dt ->
  DailyAssignment.date a = datetime.isoformat dt ->
  datetime.weekday dt = 4 ->
  DailyAssignment.shift a <> "E" /\ DailyAssignment.shift a <> "N".
Proof.
  intros Hok Hnd Hin Hflag Ha Hid Hnew Hdate Hwd.
  apply generate_schedule_ok in Hok as (_ & Hr & Hl). rewrite Hl in Ha.
  apply elem_of_roster in Ha as (i & idx & emp' & Hi & Hemp & ->).
  unfold entry_of, entry_on in *.
  cbn [DailyAssignment.employee_id DailyAssignment.shift
       DailyAssignment.date] in *.
  assert (emp' = emp) as -> by (eapply employee_of_id; eauto).
  apply new_fields in Hnew as (-> & Hy' & Hm' & Hd').
  destruct (day_of_fields _ _ i Hr Hi) as (? & ? & ?).
  apply isoformat_inj in Hdate; cbn [datetime.year datetime.month datetime.day];
    try lia.
  rewrite Hdate, Hwd. apply spec_shift_friday. exact Hflag.
Qed.

Lemma friday_rule_no_late_shift_witness :
  let a := {| DailyAssignment.date := "2024-03-01";
              DailyAssignment.employee_id := "e1";
              DailyAssignment.shift := "D" |} in
  DailyAssignment.shift a <> "E" /\ DailyAssignment.shift a <> "N".
Proof.
  intros a.
  refine (friday_rule_no_late_shift ward_db 0 "s1" (request "ward" 2024 3)
            {| GenerateResponse.id := "s1";
               GenerateResponse.assignments := roster 2024 3 ward |}
            (employee "e1" "ward" (Some both_rules)) a
            2024 3 1 (datetime.Date 2024 3 1) _ _ _ _ _ _ _ _ _).
  - vm_compute. reflexivity.
  - apply (bool_decide_unpack _). vm_compute. exact I.
  - vm_compute. tauto.
  - vm_compute. reflexivity.
  - vm_compute. tauto.
  - reflexivity.
  - vm_compute. reflexivity.
  - vm_compute. reflexivity.
  - vm_compute. reflexivity.
Defined.

(** The two halves of the empty-department rule on every month the
    handler can build: an empty department ends the run with the 400
    error and the store unchanged; a staffed department and a month in
    range get the assignment list returned and stored as a new schedule
    document; and whatever the exception, the store is unchanged. *)
Lemma empty_or_in_range_persisted (db : Db) (now : Z) (oid : string)
    (body : GenerateRequest.t) :
  (find_employees db (GenerateRequest.department_id body) = [] ->
   generate_schedule db now oid body
   = (db, Raise (HTTPException 400 "No employees in department"))) /\
  (month_in_range (GenerateRequest.year body) (GenerateRequest.month body) ->
   staffed_run_persists db now oid body) /\
  (forall e, snd (generate_schedule db now oid body) = Raise e ->
             fst (generate_schedule db now oid body) = db).
Proof.
  split; [apply generate_schedule_empty|]. split.
  - intros Hr Hne. eexists. apply generate_schedule_in_range; assumption.
  - apply generate_schedule_raise.
Qed.

(** C5. At December of year 9999 a staffed department gets nothing
    returned and nothing stored: the run ends with the [OverflowError]
    of line 131 and the store is as it was, where the claim has the
    assignment list returned and a schedule record written. *)
Theorem staffed_december_9999_not_persisted :
  find_employees ward_db "ward" <> [] /\
  snd (generate_schedule ward_db 0 "s1" (request "ward" 9999 12))
  = Raise OverflowError /\
  fst (generate_schedule ward_db 0 "s1" (request "ward" 9999 12)) = ward_db /\
  ~ staffed_run_persists ward_db 0 "s1" (request "ward" 9999 12).
Proof.
  assert (generate_schedule ward_db 0 "s1" (request "ward" 9999 12)
          = (ward_db, Raise OverflowError)) as Hrun by (vm_compute; reflexivity).
  split; [vm_compute; discriminate|]. rewrite Hrun.
  split; [reflexivity|]. split; [reflexivity|].
  intros H. destruct H as [l Hl]; [vm_compute; discriminate|].
  rewrite Hrun in Hl. congruence.
Qed.

(** C6. Two runs over the same employee list, year and month return the
    same assignment list, whatever the clock, the identifier the store
    hands out and the rest of the store are. *)
Theorem rotation_deterministic (db1 db2 : Db) (now1 now2 : Z)
    (oid1 oid2 : string) (body1 body2 : GenerateRequest.t) :
  find_employees db1 (GenerateRequest.department_id body1)
  = find_employees db2 (GenerateRequest.department_id body2) ->
  GenerateRequest.year body1 = GenerateRequest.year body2 ->
  GenerateRequest.month body1 = GenerateRequest.month body2 ->
  returned_assignments (generate_schedule db1 now1 oid1 body1)
  = returned_assignments (generate_schedule db2 now2 oid2 body2).
Proof.
  intros He Hy Hm. unfold generate_schedule, returned_assignments.
  rewrite He, Hy, Hm.
  destruct (find_employees db2 _) as [|e es]; [reflexivity|].
  destruct (build_assignments _ _ _); reflexivity.
Qed.

Lemma rotation_deterministic_witness :
  returned_assignments
    (generate_schedule ward_db 0 "s1" (request "ward" 2024 3))
  = returned_assignments
      (generate_schedule busy_db 86400 "s2" (request "ward" 2024 3)).
Proof.
  apply rotation_deterministic.
  - vm_compute. reflexivity.
  - reflexivity.
  - reflexivity.
Defined.

(** C7. Two employee lists that agree, position by position, on the
    identifier and the hard rules give the same assignment list for the
    same year and month: absences, soft preferences and the contract
    percentage do not reach the output. *)
Theorem unused_fields_do_not_interfere (db1 db2 : Db) (now1 now2 : Z)
    (oid1 oid2 : string) (body1 body2 : GenerateRequest.t) :
  Forall2 same_identity_and_rules
    (find_employees db1 (GenerateRequest.department_id body1))
    (find_employees db2 (GenerateRequest.department_id body2)) ->
  GenerateRequest.year body1 = GenerateRequest.year body2 ->
  GenerateRequest.month body1 = GenerateRequest.month body2 ->
  returned_assignments (generate_schedule db1 now1 oid1 body1)
  = returned_assignments (generate_schedule db2 now2 oid2 body2).
Proof.
  intros He Hy Hm. unfold generate_schedule, returned_assignments.
  rewrite Hy, Hm.
  pose proof (build_assignments_ext (GenerateRequest.year body2)
                (GenerateRequest.month body2) _ _ He) as Hb.
  destruct He as [|e1 e2 l1 l2 H12 Hl]; [reflexivity|].
  rewrite Hb. destruct (build_assignments _ _ (e2 :: l2)); reflexivity.
Qed.

Lemma unused_fields_do_not_interfere_witness :
  returned_assignments
    (generate_schedule ward_db 0 "s1" (request "ward" 2024 3))
  = returned_assignments
      (generate_schedule part_time_db 0 "s1" (request "ward" 2024 3)).
Proof.
  apply unused_fields_do_not_interfere.
  - vm_compute. repeat constructor.
  - reflexivity.
  - reflexivity.
Defined.

(** In a department of two or more no date has everyone Off: the
    employees at positions 0 and 1 never rest on the same day. *)
Lemma all_off_needs_single_employee (db : Db) (now : Z) (oid : string)
    (body : GenerateRequest.t) (resp : GenerateResponse.t) (dt : string) :
  snd (generate_schedule db now oid body) = Ok resp ->
  (2 <= length (find_employees db (GenerateRequest.department_id body)))%nat ->
  ~ all_on_date (find_employees db (GenerateRequest.department_id body))
      (GenerateResponse.assignments resp) dt "OFF".
Proof.
  intros Hok HE [Hevery Hoff].
  apply generate_schedule_ok in Hok as (_ & _ & Hl). rewrite Hl in *.
  set (y := GenerateRequest.year body) in *.
  set (m := GenerateRequest.month body) in *.
  set (employees := find_employees db _) in *.
  destruct (lookup_lt_is_Some_2 employees 0 ltac:(lia)) as [e0 He0].
  destruct (lookup_lt_is_Some_2 employees 1 ltac:(lia)) as [e1 He1].
  rewrite List.Forall_forall in Hevery. rewrite List.Forall_forall in Hoff.
  assert (In e0 employees) as Hin0
    by (apply list_elem_of_In, list_elem_of_lookup; eauto).
  specialize (Hevery e0 Hin0).
  apply List.Exists_exists in Hevery as (a & Ha & Hdt & _).
  apply elem_of_roster in Ha as (i & idx & emp & Hi & _ & ->).
  unfold entry_of, entry_on in Hdt. cbn [DailyAssignment.date] in Hdt.
  assert (forall idx' emp', employees !! idx' = Some emp' ->
            ((i + idx') mod 7 = 6)%nat) as Hrest.
  { intros idx' emp' Hemp'.
    apply (spec_shift_off_iff i idx' (datetime.weekday (day_of y m i)) emp').
    apply (Hoff (entry_of y m i idx' emp')).
    - apply elem_of_roster. exists i, idx', emp'.
      split; [exact Hi|]. split; [exact Hemp' | reflexivity].
    - exact Hdt. }
  pose proof (Hrest 0%nat e0 He0) as H0.
  pose proof (Hrest 1%nat e1 He1) as H1.
  pose proof (Nat.div_mod_eq (i + 0) 7).
  pose proof (Nat.div_mod_eq (i + 1) 7).
  lia.
Qed.

(** C8, as worded for a department of several employees, fails: no run
    over two or more employees has a date on which all of them are Off. *)
Lemma no_all_off_date_for_two_or_more :
  ~ (exists db now oid body resp dt,
       snd (generate_schedule db now oid body) = Ok resp /\
       (2 <= length (find_employees db
                       (GenerateRequest.department_id body)))%nat /\
       all_on_date (find_employees db (GenerateRequest.department_id body))
         (GenerateResponse.assignments resp) dt "OFF").
Proof.
  intros (db & now & oid & body & resp & dt & Hok & HE & Hall).
  exact (all_off_needs_single_employee db now oid body resp dt Hok HE Hall).
Qed.

(** C8, amended. Some run over several employees has a date on which
    every employee has the Day shift (a ward of three holding both hard
    rules on Friday the first of March 2024); a date on which every
    employee is Off exists for a department of one (the seventh day of
    January 2024) and for no department of two or more. *)
Theorem all_day_possible_all_off_only_alone :
  (exists db now oid body resp dt,
     snd (generate_schedule db now oid body) = Ok resp /\
     (2 <= length (find_employees db
                     (GenerateRequest.department_id body)))%nat /\
     all_on_date (find_employees db (GenerateRequest.department_id body))
       (GenerateResponse.assignments resp) dt "D") /\
  (exists db now oid body resp dt,
     snd (generate_schedule db now oid body) = Ok resp /\
     length (find_employees db (GenerateRequest.department_id body)) = 1%nat /\
     all_on_date (find_employees db (GenerateRequest.department_id body))
       (GenerateResponse.assignments resp) dt "OFF") /\
  (forall db now oid body resp dt,
     snd (generate_schedule db now oid body) = Ok resp ->
     (2 <= length (find_employees db
                     (GenerateRequest.department_id body)))%nat ->
     ~ all_on_date (find_employees db (GenerateRequest.department_id body))
         (GenerateResponse.assignments resp) dt "OFF").
Proof.
  split; [|split].
  - exists ward_db, 0, "s1", (request "ward" 2024 3),
      {| GenerateResponse.id := "s1";
         GenerateResponse.assignments := roster 2024 3 ward |}, "2024-03-01".
    split; [vm_compute; reflexivity|].
    split; [vm_compute; lia|].
    split; apply (bool_decide_unpack _); vm_compute; exact I.
  - exists solo_db, 0, "s1", (request "solo" 2024 1),
      {| GenerateResponse.id := "s1";
         GenerateResponse.assignments := roster 2024 1 solo |}, "2024-01-07".
    split; [vm_compute; reflexivity|].
    split; [vm_compute; reflexivity|].
    split; apply (bool_decide_unpack _); vm_compute; exact I.
  - apply all_off_needs_single_employee.
Qed.

Lemma all_day_possible_all_off_only_alone_witness :
  ~ all_on_date (find_employees ward_db "ward")
      (roster 2024 3 ward) "2024-03-07" "OFF".
Proof.
  apply (proj2 (proj2 all_day_possible_all_off_only_alone)
           ward_db 0 "s1" (request "ward" 2024 3)
           {| GenerateResponse.id := "s1";
              GenerateResponse.assignments := roster 2024 3 ward |}
           "2024-03-07").
  - vm_compute. reflexivity.
  - vm_compute. lia.
Defined.

(** C9. Whatever the lower-casing function, the result of the matcher
    holds [True] under "no_night" exactly when the lowered text contains
    "never night", "avoid night" or "ikke natt"; [True] under
    "no_after_16_friday" exactly when it contains "cannot work after 16"
    or "ikke etter 16"; 1.0 under "prefer_day" exactly when it contains
    "prefer day", "day shifts" or "dagvakt"; 1.0 under "prefer_evening"
    exactly when it contains "prefer evening" or "kveld"; and no other
    key or value. *)
Theorem interpret_matches_keyword_table (lower : string -> string)
    (text : string) :
  let r := interpret_preferences lower text in
  let t := lower text in
  (PreferenceInterpretation.hard_rules r !! "no_night" = Some (PyBool true)
   <-> occurs_in "never night" t \/ occurs_in "avoid night" t
       \/ occurs_in "ikke natt" t) /\
  (PreferenceInterpretation.hard_rules r !! "no_after_16_friday"
   = Some (PyBool true)
   <-> occurs_in "cannot work after 16" t \/ occurs_in "ikke etter 16" t) /\
  (PreferenceInterpretation.soft_preferences r !! "prefer_day"
   = Some (PyFloat float_one)
   <-> occurs_in "prefer day" t \/ occurs_in "day shifts" t
       \/ occurs_in "dagvakt" t) /\
  (PreferenceInterpretation.soft_preferences r !! "prefer_evening"
   = Some (PyFloat float_one)
   <-> occurs_in "prefer evening" t \/ occurs_in "kveld" t) /\
  (forall k v, PreferenceInterpretation.hard_rules r !! k = Some v ->
     (k = "no_night" \/ k = "no_after_16_friday") /\ v = PyBool true) /\
  (forall k v, PreferenceInterpretation.soft_preferences r !! k = Some v ->
     (k = "prefer_day" \/ k = "prefer_evening") /\ v = PyFloat float_one).
Proof.
  intros r t. subst r. unfold interpret_preferences. fold t. cbv zeta.
  cbn [PreferenceInterpretation.hard_rules
       PreferenceInterpretation.soft_preferences].
  rewrite <- contains_any3, <- contains_any3, <- !contains_any2.
  destruct (str_contains "never night" t || str_contains "avoid night" t
            || str_contains "ikke natt" t);
  destruct (str_contains "cannot work after 16" t
            || str_contains "ikke etter 16" t);
  destruct (str_contains "prefer day" t || str_contains "day shifts" t
            || str_contains "dagvakt" t);
  destruct (str_contains "prefer evening" t || str_contains "kveld" t).
  all: repeat split; try discriminate; try reflexivity;
    repeat match goal with
      | H : <[_:=_]> _ !! _ = Some _ |- _ =>
          apply lookup_insert_Some in H as [[<- <-] | [_ H]]
      | H : ∅ !! _ = Some _ |- _ => rewrite lookup_empty in H; discriminate H
      end; auto.
Qed.

(** C10. For a staffed department and a month in range the run succeeds;
    and the list every successful run returns, for a month of [D] days
    and [E] employees, has [D * E] entries; position [k] holds day
    [k / E] of the month and the employee at position [k mod E], so the
    list runs day after day and, within a day, in list order; and with
    distinct employee identifiers no (date, employee) pair occurs twice. *)
Theorem roster_by_day_then_employee (db : Db) (now : Z) (oid : string)
    (body : GenerateRequest.t) :
  (find_employees db (GenerateRequest.department_id body) <> [] ->
   month_in_range (GenerateRequest.year body) (GenerateRequest.month body) ->
   exists resp, snd (generate_schedule db now oid body) = Ok resp) /\
  (forall resp,
     snd (generate_schedule db now oid body) = Ok resp ->
     roster_shape (find_employees db (GenerateRequest.department_id body))
       (GenerateRequest.year body) (GenerateRequest.month body)
       (GenerateResponse.assignments resp)).
Proof.
  split.
  - intros Hne Hr.
    rewrite (generate_schedule_in_range db now oid body Hne Hr).
    eexists. reflexivity.
  - intros resp Hok. apply generate_schedule_ok in Hok as (_ & Hr & ->).
    apply roster_has_shape. exact Hr.
Qed.

Lemma roster_by_day_then_employee_witness :
  exists resp,
    snd (generate_schedule ward_db 0 "s1" (request "ward" 2024 2)) = Ok resp /\
    roster_shape (find_employees ward_db "ward") 2024 2
      (GenerateResponse.assignments resp).
Proof.
  destruct (roster_by_day_then_employee ward_db 0 "s1" (request "ward" 2024 2))
    as [Hruns Hshape].
  destruct Hruns as [resp Hresp].
  - vm_compute. discriminate.
  - unfold month_in_range. cbn. lia.
  - exists resp. split; [exact Hresp | exact (Hshape resp Hresp)].
Defined.

End Claims.

(** * Further properties of the handlers *)

(** ** Stored schedules *)

Section StoredSchedules.

Lemma head_app_or {A : Type} (l1 l2 : list A) :
  head (l1 ++ l2) = match head l1 with Some x => Some x | None => head l2 end.
Proof. destruct l1; reflexivity. Qed.

Lemma find_one_schedule_insert (db : Db) (d : Schedule.doc)
    (dept : string) (y m : Z) :
  find_one_schedule (insert_schedule db d) dept y m
  = match find_one_schedule db dept y m with
    | Some x => Some x
    | None =>
        if decide (Schedule.department_id d = dept /\
                   Schedule.year d = y /\ Schedule.month d = m)
        then Some d else None
    end.
Proof.
  unfold find_one_schedule, insert_schedule. cbn [db_schedule].
  rewrite filter_app, head_app_or.
  destruct (head (filter _ (db_schedule db))); [reflexivity|].
  rewrite filter_cons, filter_nil. destruct (decide _); reflexivity.
Qed.

(** The store a run leaves behind. *)
Lemma generate_schedule_store (db : Db) (now : Z) (oid : string)
    (body : GenerateRequest.t) :
  fst (generate_schedule db now oid body) = db \/
  exists resp,
    snd (generate_schedule db now oid body) = Ok resp /\
    fst (generate_schedule db now oid body)
    = insert_schedule db
        (schedule_doc_of now oid body (GenerateResponse.assignments resp)).
Proof.
  unfold generate_schedule.
  destruct (find_employees db _) as [|e es]; [left; reflexivity|].
  destruct (build_assignments _ _ _) as [l|ex]; [|left; reflexivity].
  right. eexists. split; reflexivity.
Qed.

Lemma generate_schedule_ok_store (db : Db) (now : Z) (oid : string)
    (body : GenerateRequest.t) (resp : GenerateResponse.t) :
  snd (generate_schedule db now oid body) = Ok resp ->
  GenerateResponse.id resp = oid /\
  fst (generate_schedule db now oid body)
  = insert_schedule db
      (schedule_doc_of now oid body (GenerateResponse.assignments resp)).
Proof.
  unfold generate_schedule.
  destruct (find_employees db _) as [|e es]; [discriminate|].
  destruct (build_assignments _ _ _) as [l|ex]; [|discriminate].
  cbn [snd fst]. intros [= <-]. split; reflexivity.
Qed.

(** X1. Generation is not idempotent: a second run of the same request
    on the store the first one left succeeds with the same assignment
    list and stores a second document beside the first; the employee
    collection is as it was. *)
Theorem generate_twice_two_records (db : Db) (now1 now2 : Z)
    (oid1 oid2 : string) (body : GenerateRequest.t)
    (r1 : GenerateResponse.t) :
  snd (generate_schedule db now1 oid1 body) = Ok r1 ->
  exists r2,
    snd (generate_schedule (fst (generate_schedule db now1 oid1 body))
           now2 oid2 body) = Ok r2 /\
    GenerateResponse.assignments r2 = GenerateResponse.assignments r1 /\
    db_schedule (fst (generate_schedule
                        (fst (generate_schedule db now1 oid1 body))
                        now2 oid2 body))
    = db_schedule db
      ++ [ schedule_doc_of now1 oid1 body (GenerateResponse.assignments r1);
           schedule_doc_of now2 oid2 body (GenerateResponse.assignments r1) ] /\
    db_employee (fst (generate_schedule
                        (fst (generate_schedule db now1 oid1 body))
                        now2 oid2 body))
    = db_employee db.
Proof.
  intros Hok1.
  destruct (generate_schedule_ok_store _ _ _ _ _ Hok1) as [_ Hst1].
  destruct (generate_schedule_ok _ _ _ _ _ Hok1) as (Hne & Hr & Hl1).
  rewrite Hst1.
  set (db1 := insert_schedule db _).
  assert (find_employees db1 (GenerateRequest.department_id body)
          = find_employees db (GenerateRequest.department_id body)) as Hemp
    by reflexivity.
  pose proof (generate_schedule_in_range db1 now2 oid2 body) as Hrun2.
  cbv zeta in Hrun2. rewrite Hemp in Hrun2. specialize (Hrun2 Hne Hr).
  rewrite Hrun2. cbn [fst snd]. eexists. split; [reflexivity|].
  cbn [GenerateResponse.assignments]. rewrite <- Hl1.
  split; [reflexivity|]. subst db1. unfold insert_schedule.
  cbn [db_schedule db_employee]. rewrite <- app_assoc. split; reflexivity.
Qed.

Lemma generate_twice_two_records_witness :
  exists r2,
    snd (generate_schedule
           (fst (generate_schedule ward_db 0 "s1" (request "ward" 2024 3)))
           60 "s2" (request "ward" 2024 3)) = Ok r2 /\
    GenerateResponse.assignments r2 = roster 2024 3 ward /\
    length (db_schedule
              (fst (generate_schedule
                      (fst (generate_schedule ward_db 0 "s1"
                              (request "ward" 2024 3)))
                      60 "s2" (request "ward" 2024 3)))) = 2%nat.
Proof.
  destruct (generate_twice_two_records ward_db 0 60 "s1" "s2"
              (request "ward" 2024 3)
              {| GenerateResponse.id := "s1";
                 GenerateResponse.assignments := roster 2024 3 ward |})
    as (r2 & Hr2 & Hsame & Hdocs & _).
  - vm_compute. reflexivity.
  - exists r2. split; [exact Hr2|]. split; [exact Hsame|].
    rewrite Hdocs. reflexivity.
Defined.

(** X2. A generated schedule can be read back: when no schedule of the
    department, year and month was stored before a successful run,
    [get_schedule] on the store it leaves answers with the identifier
    and the assignment list the run returned. *)
Theorem get_schedule_after_generate (db : Db) (now : Z) (oid : string)
    (body : GenerateRequest.t) (resp : GenerateResponse.t) :
  snd (generate_schedule db now oid body) = Ok resp ->
  get_schedule db (GenerateRequest.department_id body)
    (GenerateRequest.year body) (GenerateRequest.month body)
  = Raise (HTTPException 404 "Schedule not found") ->
  get_schedule (fst (generate_schedule db now oid body))
    (GenerateRequest.department_id body)
    (GenerateRequest.year body) (GenerateRequest.month body)
  = Ok {| ScheduleView.id := GenerateResponse.id resp;
          ScheduleView.department_id := GenerateRequest.department_id body;
          ScheduleView.year := GenerateRequest.year body;
          ScheduleView.month := GenerateRequest.month body;
          ScheduleView.assignments := GenerateResponse.assignments resp;
          ScheduleView.created_at := now |}.
Proof.
  intros Hok Hnone.
  destruct (generate_schedule_ok_store _ _ _ _ _ Hok) as [Hid Hst].
  rewrite Hst. unfold get_schedule in *.
  rewrite find_one_schedule_insert.
  destruct (find_one_schedule db _ _ _); [discriminate|].
  destruct (decide _) as [_|Hn].
  - rewrite Hid. reflexivity.
  - exfalso. apply Hn. repeat split; reflexivity.
Qed.

Lemma get_schedule_after_generate_witness :
  get_schedule (fst (generate_schedule ward_db 0 "s1" (request "ward" 2024 3)))
    "ward" 2024 3
  = Ok {| ScheduleView.id := "s1";
          ScheduleView.department_id := "ward";
          ScheduleView.year := 2024;
          ScheduleView.month := 3;
          ScheduleView.assignments := roster 2024 3 ward;
          ScheduleView.created_at := 0 |}.
Proof.
  apply (get_schedule_after_generate ward_db 0 "s1" (request "ward" 2024 3)
           {| GenerateResponse.id := "s1";
              GenerateResponse.assignments := roster 2024 3 ward |}).
  - vm_compute. reflexivity.
  - vm_compute. reflexivity.
Defined.

(** X3. Once a schedule of a department, year and month is stored,
    [get_schedule] keeps answering with it: no later run of
    [generate_schedule], for whatever request, changes the answer. *)
Theorem get_schedule_keeps_first (db : Db) (dept : string) (y m : Z)
    (v : ScheduleView.t) (now : Z) (oid : string) (body : GenerateRequest.t) :
  get_schedule db dept y m = Ok v ->
  get_schedule (fst (generate_schedule db now oid body)) dept y m = Ok v.
Proof.
  intros Hget.
  destruct (generate_schedule_store db now oid body) as [-> | (resp & _ & ->)];
    [exact Hget|].
  unfold get_schedule in *. rewrite find_one_schedule_insert.
  destruct (find_one_schedule db dept y m); [exact Hget | discriminate].
Qed.

Lemma get_schedule_keeps_first_witness :
  exists v,
    get_schedule (fst (generate_schedule ward_db 0 "s1" (request "ward" 2024 3)))
      "ward" 2024 3 = Ok v /\
    ScheduleView.id v = "s1" /\
    get_schedule
      (fst (generate_schedule
              (fst (generate_schedule ward_db 0 "s1" (request "ward" 2024 3)))
              60 "s2" (request "ward" 2024 3)))
      "ward" 2024 3 = Ok v.
Proof.
  eexists. split; [vm_compute; reflexivity|]. split; [reflexivity|].
  apply get_schedule_keeps_first. vm_compute. reflexivity.
Defined.

(** X4. A run for another department, year or month does not change
    what [get_schedule] answers for this one. *)
Theorem get_schedule_other_key (db : Db) (dept : string) (y m : Z)
    (now : Z) (oid : string) (body : GenerateRequest.t) :
  ~ (GenerateRequest.department_id body = dept /\
     GenerateRequest.year body = y /\ GenerateRequest.month body = m) ->
  get_schedule (fst (generate_schedule db now oid body)) dept y m
  = get_schedule db dept y m.
Proof.
  intros Hkey.
  destruct (generate_schedule_store db now oid body) as [-> | (resp & _ & ->)];
    [reflexivity|].
  unfold get_schedule. rewrite find_one_schedule_insert.
  destruct (find_one_schedule db dept y m); [reflexivity|].
  destruct (decide _) as [Hd|_]; [|reflexivity].
  exfalso. apply Hkey. exact Hd.
Qed.

Lemma get_schedule_other_key_witness :
  get_schedule (fst (generate_schedule ward_db 0 "s1" (request "ward" 2024 3)))
    "ward" 2024 4
  = get_schedule ward_db "ward" 2024 4.
Proof.
  apply get_schedule_other_key. cbn. intros (_ & _ & H). discriminate H.
Defined.

(** X5. Only the department's employees are scheduled: every entry a
    run returns carries the identifier of a stored employee whose
    department is the requested one. *)
Theorem only_department_scheduled (db : Db) (now : Z) (oid : string)
    (body : GenerateRequest.t) (resp : GenerateResponse.t)
    (a : DailyAssignment.t) :
  snd (generate_schedule db now oid body) = Ok resp ->
  In a (GenerateResponse.assignments resp) ->
  exists emp, In emp (db_employee db) /\
    Employee.department_id emp = GenerateRequest.department_id body /\
    Employee._id emp = DailyAssignment.employee_id a.
Proof.
  intros Hok Ha.
  apply generate_schedule_ok in Hok as (_ & _ & Hl). rewrite Hl in Ha.
  apply elem_of_roster in Ha as (i & idx & emp & _ & Hemp & ->).
  exists emp.
  assert (emp ∈ find_employees db (GenerateRequest.department_id body)) as Hin
    by (apply list_elem_of_lookup; eauto).
  unfold find_employees in Hin. apply list_elem_of_filter in Hin as [Hd Hin].
  repeat split; [apply list_elem_of_In; exact Hin | exact Hd].
Qed.

Lemma only_department_scheduled_witness :
  exists emp, In emp (db_employee busy_db) /\
    Employee.department_id emp = "ward" /\ Employee._id emp = "e2".
Proof.
  apply (only_department_scheduled busy_db 0 "s1" (request "ward" 2024 3)
           {| GenerateResponse.id := "s1";
              GenerateResponse.assignments := roster 2024 3 ward |}
           {| DailyAssignment.date := "2024-03-01";
              DailyAssignment.employee_id := "e2";
              DailyAssignment.shift := "D" |}).
  - vm_compute. reflexivity.
  - vm_compute. tauto.
Defined.

End StoredSchedules.

(** ** Rest days and coverage *)

Section RestDays.

Lemma spec_shift_without_flags (i idx : nat) (weekday : Z) (emp : Employee.doc) :
  has_flag emp "no_night" = false ->
  has_flag emp "no_after_16_friday" = false ->
  spec_shift i idx weekday emp
  = if ((i + idx) mod 7 =? 6)%nat then "OFF" else base_rotation i idx.
Proof.
  intros Hn Hf. unfold spec_shift, friday_override, no_night_override.
  rewrite Hn, Hf. reflexivity.
Qed.

Lemma roster_shift_at (y m : Z) (employees : list Employee.doc)
    (i idx : nat) (emp : Employee.doc) :
  (i < Z.to_nat (calendar_days y m))%nat ->
  employees !! idx = Some emp ->
  shift_at (length employees) (roster y m employees) i idx
  = Some (spec_shift i idx (datetime.weekday (day_of y m i)) emp).
Proof.
  intros Hi Hemp. unfold shift_at.
  rewrite (roster_lookup y m employees i idx emp Hi Hemp). reflexivity.
Qed.

Lemma rest_day_in_window (s idx j : nat) :
  (j < 7)%nat ->
  (((s + j + idx) mod 7 = 6)%nat <-> j = (6 - (s + idx) mod 7)%nat).
Proof.
  intros Hj.
  pose proof (Nat.mod_upper_bound (s + idx) 7 ltac:(lia)) as Hr.
  pose proof (Nat.div_mod_eq (s + idx) 7) as Hq.
  set (r := ((s + idx) mod 7)%nat) in *.
  set (q := ((s + idx) / 7)%nat) in *.
  replace (s + j + idx)%nat with (r + j + q * 7)%nat by lia.
  rewrite Nat.Div0.mod_add.
  pose proof (Nat.mod_upper_bound (r + j) 7 ltac:(lia)) as Hr'.
  pose proof (Nat.div_mod_eq (r + j) 7) as Hq'.
  assert ((r + j) / 7 = 0 \/ (r + j) / 7 = 1)%nat as [H0 | H1] by lia; lia.
Qed.

(** X6. Every employee rests on exactly one of any seven consecutive
    days of a generated month: among the day offsets [s .. s + 6] there
    is one, and only one, whose entry for the employee is Off. *)
Theorem one_rest_day_in_seven (db : Db) (now : Z) (oid : string)
    (body : GenerateRequest.t) (resp : GenerateResponse.t) (s idx : nat) :
  snd (generate_schedule db now oid body) = Ok resp ->
  (idx < length (find_employees db (GenerateRequest.department_id body)))%nat ->
  (s + 7 <= Z.to_nat (calendar_days (GenerateRequest.year body)
                        (GenerateRequest.month body)))%nat ->
  exists j, (j < 7)%nat /\
    forall j', (j' < 7)%nat ->
      (shift_at
         (length (find_employees db (GenerateRequest.department_id body)))
         (GenerateResponse.assignments resp) (s + j') idx = Some "OFF"
       <-> j' = j).
Proof.
  intros Hok Hidx Hs.
  apply generate_schedule_ok in Hok as (_ & _ & ->).
  destruct (lookup_lt_is_Some_2 _ _ Hidx) as [emp Hemp].
  exists (6 - (s + idx) mod 7)%nat. split.
  { pose proof (Nat.mod_upper_bound (s + idx) 7 ltac:(lia)). lia. }
  intros j' Hj'.
  assert (s + j' < Z.to_nat (calendar_days (GenerateRequest.year body)
                               (GenerateRequest.month body)))%nat as Hday
    by lia.
  rewrite (roster_shift_at _ _ _ (s + j') idx emp Hday Hemp).
  rewrite <- (rest_day_in_window s idx j' Hj').
  rewrite <- (spec_shift_off_iff (s + j') idx
                (datetime.weekday
                   (day_of (GenerateRequest.year body)
                      (GenerateRequest.month body) (s + j'))) emp).
  split; [intros [= H]; exact H | intros ->; reflexivity].
Qed.

Lemma one_rest_day_in_seven_witness :
  exists j, (j < 7)%nat /\
    forall j', (j' < 7)%nat ->
      (shift_at (length (find_employees ward_db "ward"))
         (roster 2024 3 ward) (10 + j') 1 = Some "OFF" <-> j' = j).
Proof.
  apply (one_rest_day_in_seven ward_db 0 "s1" (request "ward" 2024 3)
           {| GenerateResponse.id := "s1";
              GenerateResponse.assignments := roster 2024 3 ward |} 10 1).
  - vm_compute. reflexivity.
  - vm_compute. lia.
  - vm_compute. lia.
Defined.

Lemma rotation_rest_days_mod (D idx : nat) :
  rotation_rest_days D idx = rotation_rest_days D (idx mod 7).
Proof.
  unfold rotation_rest_days. f_equal. apply filter_ext. intros i.
  rewrite Nat.Div0.add_mod_idemp_r. reflexivity.
Qed.

Lemma rotation_rest_days_range (D idx : nat) :
  (28 <= D <= 31)%nat -> (4 <= rotation_rest_days D idx <= 5)%nat.
Proof.
  intros HD. rewrite rotation_rest_days_mod.
  assert (rest_days_check = true) as Hall by (vm_compute; reflexivity).
  unfold rest_days_check in Hall. rewrite forallb_forall in Hall.
  specialize (Hall D ltac:(apply in_seq; lia)).
  rewrite forallb_forall in Hall.
  specialize (Hall (idx mod 7)%nat).
  cbv zeta in Hall.
  pose proof (Nat.mod_upper_bound idx 7 ltac:(lia)).
  specialize (Hall ltac:(apply in_seq; lia)).
  apply andb_true_iff in Hall as [H4 H5].
  apply Nat.leb_le in H4, H5. lia.
Qed.

(** X7. In a generated month every employee has four or five rest days. *)
Theorem four_or_five_rest_days (db : Db) (now : Z) (oid : string)
    (body : GenerateRequest.t) (resp : GenerateResponse.t) (idx : nat) :
  snd (generate_schedule db now oid body) = Ok resp ->
  (idx < length (find_employees db (GenerateRequest.department_id body)))%nat ->
  (4 <= rest_days
          (length (find_employees db (GenerateRequest.department_id body)))
          (GenerateResponse.assignments resp)
          (Z.to_nat (calendar_days (GenerateRequest.year body)
                       (GenerateRequest.month body)))
          idx <= 5)%nat.
Proof.
  intros Hok Hidx.
  apply generate_schedule_ok in Hok as (_ & _ & ->).
  destruct (lookup_lt_is_Some_2 _ _ Hidx) as [emp Hemp].
  set (y := GenerateRequest.year body). set (m := GenerateRequest.month body).
  set (employees := find_employees db _) in *.
  assert (rest_days (length employees) (roster y m employees)
            (Z.to_nat (calendar_days y m)) idx
          = rotation_rest_days (Z.to_nat (calendar_days y m)) idx) as ->.
  { unfold rest_days, rotation_rest_days. f_equal.
    apply filter_ext_in. intros i Hi. apply in_seq in Hi.
    unfold off_at.
    rewrite (roster_lookup y m employees i idx emp ltac:(lia) Hemp).
    unfold entry_of, entry_on. cbn [DailyAssignment.shift].
    destruct (Nat.eqb_spec ((i + idx) mod 7) 6) as [H6|H6].
    - apply String.eqb_eq. apply spec_shift_off_iff. exact H6.
    - apply String.eqb_neq. intros Hoff. apply H6.
      apply spec_shift_off_iff in Hoff. exact Hoff. }
  apply rotation_rest_days_range.
  pose proof (calendar_days_range y m). lia.
Qed.

Lemma four_or_five_rest_days_witness :
  (4 <= rest_days (length (find_employees ward_db "ward"))
          (roster 2024 2 ward) (Z.to_nat (calendar_days 2024 2)) 2 <= 5)%nat.
Proof.
  apply (four_or_five_rest_days ward_db 0 "s1" (request "ward" 2024 2)
           {| GenerateResponse.id := "s1";
              GenerateResponse.assignments := roster 2024 2 ward |} 2).
  - vm_compute. reflexivity.
  - vm_compute. lia.
Defined.

Lemma base_rotation_succ (i idx : nat) :
  (base_rotation i idx = "D" -> base_rotation i (idx + 1) = "E") /\
  (base_rotation i idx = "E" -> base_rotation i (idx + 1) = "N") /\
  (base_rotation i idx = "N" -> base_rotation i (idx + 1) = "D").
Proof.
  unfold base_rotation.
  replace (i + (idx + 1))%nat with (i + idx + 1)%nat by lia.
  pose proof (Nat.mod_upper_bound (i + idx) 3 ltac:(lia)) as Hr.
  pose proof (Nat.div_mod_eq (i + idx) 3) as Hq.
  pose proof (Nat.mod_upper_bound (i + idx + 1) 3 ltac:(lia)) as Hr'.
  pose proof (Nat.div_mod_eq (i + idx + 1) 3) as Hq'.
  assert (((i + idx + 1) mod 3 = ((i + idx) mod 3 + 1))%nat
          \/ ((i + idx) mod 3 = 2 /\ (i + idx + 1) mod 3 = 0)%nat) as Hc by lia.
  destruct ((i + idx) mod 3)%nat as [|[|[|r]]];
    destruct ((i + idx + 1) mod 3)%nat as [|[|[|r']]];
    repeat split; intros; try discriminate; try reflexivity; lia.
Qed.

(** X8. Three employees at consecutive list positions, none with a hard
    rule set and none resting on a day, cover all three working shifts
    on that day: each of D, E and N is the shift of one of them. *)
Theorem three_in_a_row_cover_all_shifts (db : Db) (now : Z) (oid : string)
    (body : GenerateRequest.t) (resp : GenerateResponse.t)
    (i idx : nat) (s : string) :
  snd (generate_schedule db now oid body) = Ok resp ->
  (i < Z.to_nat (calendar_days (GenerateRequest.year body)
                   (GenerateRequest.month body)))%nat ->
  (forall k, (k < 3)%nat ->
     exists emp,
       find_employees db (GenerateRequest.department_id body) !! (idx + k)%nat
       = Some emp /\
       has_flag emp "no_night" = false /\
       has_flag emp "no_after_16_friday" = false /\
       ((i + (idx + k)) mod 7 <> 6)%nat) ->
  In s ["D"; "E"; "N"] ->
  exists k, (k < 3)%nat /\
    shift_at (length (find_employees db (GenerateRequest.department_id body)))
      (GenerateResponse.assignments resp) i (idx + k) = Some s.
Proof.
  intros Hok Hi Hemps Hs.
  apply generate_schedule_ok in Hok as (_ & _ & ->).
  assert (forall k, (k < 3)%nat ->
            shift_at
              (length (find_employees db (GenerateRequest.department_id body)))
              (roster (GenerateRequest.year body) (GenerateRequest.month body)
                 (find_employees db (GenerateRequest.department_id body)))
              i (idx + k)
            = Some (base_rotation i (idx + k))) as Hshift.
  { intros k Hk. destruct (Hemps k Hk) as (emp & Hemp & Hn & Hf & Hrest).
    rewrite (roster_shift_at _ _ _ i (idx + k) emp Hi Hemp).
    rewrite spec_shift_without_flags by assumption.
    apply Nat.eqb_neq in Hrest. rewrite Hrest. reflexivity. }
  pose proof (Hshift 0%nat ltac:(lia)) as H0.
  pose proof (Hshift 1%nat ltac:(lia)) as H1.
  pose proof (Hshift 2%nat ltac:(lia)) as H2.
  destruct (base_rotation_succ i (idx + 0)) as (HD & HE & HN).
  destruct (base_rotation_succ i (idx + 1)) as (HD' & HE' & HN').
  replace (idx + 0 + 1)%nat with (idx + 1)%nat in * by lia.
  replace (idx + 1 + 1)%nat with (idx + 2)%nat in * by lia.
  cbn in Hs.
  destruct (base_rotation_cases i (idx + 0)) as [B | [B | B]];
    [ specialize (HD B); specialize (HE' HD)
    | specialize (HE B); specialize (HN' HE)
    | specialize (HN B); specialize (HD' HN) ];
    destruct Hs as [<- | [<- | [<- | []]]];
    first [ exists 0%nat; split; [lia | rewrite H0, B; reflexivity]
          | exists 1%nat; split; [lia | rewrite H1; f_equal; assumption]
          | exists 2%nat; split; [lia | rewrite H2; f_equal; assumption] ].
Qed.

Lemma three_in_a_row_cover_all_shifts_witness :
  exists k, (k < 3)%nat /\
    shift_at (length (find_employees
                        {| db_employee := without_rules <$> ward;
                           db_schedule := [] |} "ward"))
      (roster 2024 3 (without_rules <$> ward)) 0 (0 + k) = Some "N".
Proof.
  apply (three_in_a_row_cover_all_shifts
           {| db_employee := without_rules <$> ward; db_schedule := [] |}
           0 "s1" (request "ward" 2024 3)
           {| GenerateResponse.id := "s1";
              GenerateResponse.assignments :=
                roster 2024 3 (without_rules <$> ward) |} 0 0 "N").
  - vm_compute. reflexivity.
  - vm_compute. lia.
  - intros k Hk.
    assert (k = 0 \/ k = 1 \/ k = 2)%nat as [-> | [-> | ->]] by lia;
      eexists; (split; [vm_compute; reflexivity|]);
      (split; [vm_compute; reflexivity|]);
      (split; [vm_compute; reflexivity|]); vm_compute; lia.
  - cbn. auto.
Defined.

(** X9. Hard rules never touch rest days and never move a shift anywhere
    but to Day: the shift of an employee is Off exactly when it is Off
    with the hard rules taken away, and otherwise it is either the shift
    the employee would have without hard rules or D. *)
Theorem hard_rules_only_yield_day (i idx : nat) (weekday : Z)
    (emp : Employee.doc) :
  (shift_of i idx weekday emp = "OFF"
   <-> shift_of i idx weekday (without_rules emp) = "OFF") /\
  (shift_of i idx weekday emp = shift_of i idx weekday (without_rules emp)
   \/ shift_of i idx weekday emp = "D").
Proof.
  rewrite !shift_of_spec. split.
  - rewrite !spec_shift_off_iff. reflexivity.
  - rewrite (spec_shift_without_flags i idx weekday (without_rules emp))
      by reflexivity.
    unfold spec_shift, friday_override, no_night_override.
    destruct ((i + idx) mod 7 =? 6)%nat; [left; reflexivity|].
    destruct (has_flag emp "no_night" && String.eqb (base_rotation i idx) "N");
      destruct (_ && _ && _); auto.
Qed.

(** X10. The Friday rule is idle on every other day: an employee whose
    "no_night" flag is not set gets, on a day that is not a Friday, the
    shift of the plain rotation, Evening and Night included, whatever
    its "no_after_16_friday" flag is. *)
Theorem friday_rule_idle_off_friday (i idx : nat) (weekday : Z)
    (emp : Employee.doc) :
  weekday <> 4 ->
  has_flag emp "no_night" = false ->
  shift_of i idx weekday emp = shift_of i idx weekday (without_rules emp).
Proof.
  intros Hwd Hn. rewrite !shift_of_spec.
  rewrite (spec_shift_without_flags i idx weekday (without_rules emp))
    by reflexivity.
  unfold spec_shift, friday_override, no_night_override. rewrite Hn.
  apply Z.eqb_neq in Hwd. rewrite Hwd, andb_false_r. reflexivity.
Qed.

Lemma friday_rule_idle_off_friday_witness :
  shift_of 1 0 5
    (employee "e0" "ward" (Some (<["no_after_16_friday" := PyBool true]> ∅)))
  = shift_of 1 0 5
      (without_rules
         (employee "e0" "ward"
            (Some (<["no_after_16_friday" := PyBool true]> ∅)))).
Proof.
  apply friday_rule_idle_off_friday.
  - lia.
  - vm_compute. reflexivity.
Defined.

End RestDays.

(** ** From free text to the roster *)

Section InterpretedRules.

Variable lower : string -> string.

Lemma interpret_hard_lookup (text k : string) (v : PyVal) :
  PreferenceInterpretation.hard_rules (interpret_preferences lower text) !! k
  = Some v <->
  (k = "no_night" /\ v = PyBool true /\
   str_contains "never night" (lower text)
   || str_contains "avoid night" (lower text)
   || str_contains "ikke natt" (lower text) = true) \/
  (k = "no_after_16_friday" /\ v = PyBool true /\
   str_contains "cannot work after 16" (lower text)
   || str_contains "ikke etter 16" (lower text) = true).
Proof.
  unfold interpret_preferences. cbv zeta.
  cbn [PreferenceInterpretation.hard_rules].
  destruct (str_contains "never night" (lower text)
            || str_contains "avoid night" (lower text)
            || str_contains "ikke natt" (lower text));
  destruct (str_contains "cannot work after 16" (lower text)
            || str_contains "ikke etter 16" (lower text));
  rewrite ?lookup_insert_Some, ?lookup_empty;
    intuition (subst; first [congruence | auto]).
Qed.

Lemma interpret_soft_lookup (text k : string) (v : PyVal) :
  PreferenceInterpretation.soft_preferences (interpret_preferences lower text)
    !! k = Some v <->
  (k = "prefer_day" /\ v = PyFloat float_one /\
   str_contains "prefer day" (lower text)
   || str_contains "day shifts" (lower text)
   || str_contains "dagvakt" (lower text) = true) \/
  (k = "prefer_evening" /\ v = PyFloat float_one /\
   str_contains "prefer evening" (lower text)
   || str_contains "kveld" (lower text) = true).
Proof.
  unfold interpret_preferences. cbv zeta.
  cbn [PreferenceInterpretation.soft_preferences].
  destruct (str_contains "prefer day" (lower text)
            || str_contains "day shifts" (lower text)
            || str_contains "dagvakt" (lower text));
  destruct (str_contains "prefer evening" (lower text)
            || str_contains "kveld" (lower text));
  rewrite ?lookup_insert_Some, ?lookup_empty;
    intuition (subst; first [congruence | auto]).
Qed.

Lemma string_app_assoc (a b c : string) :
  ((a ++ b) ++ c)%string = (a ++ b ++ c)%string.
Proof.
  induction a as [|x a IH]; [reflexivity|].
  exact (f_equal (String x) IH).
Qed.

Lemma occurs_in_context (sub pre t post : string) :
  occurs_in sub t -> occurs_in sub (pre ++ t ++ post)%string.
Proof.
  intros (p & q & ->). exists (pre ++ p)%string, (q ++ post)%string.
  rewrite !string_app_assoc. reflexivity.
Qed.

(** X11. A preference text that says "never night", "avoid night" or
    "ikke natt" keeps its author off the Night shift: an employee stored
    with the hard rules [interpret_preferences] reads from such a text
    has no N entry in any generated roster. *)
Theorem interpreted_text_never_night (text : string) (db : Db) (now : Z)
    (oid : string) (body : GenerateRequest.t) (resp : GenerateResponse.t)
    (emp : Employee.doc) (a : DailyAssignment.t) :
  occurs_in "never night" (lower text) \/ occurs_in "avoid night" (lower text)
  \/ occurs_in "ikke natt" (lower text) ->
  snd (generate_schedule db now oid body) = Ok resp ->
  NoDup (Employee._id <$>
           find_employees db (GenerateRequest.department_id body)) ->
  In (with_interpretation emp (interpret_preferences lower text))
    (find_employees db (GenerateRequest.department_id body)) ->
  In a (GenerateResponse.assignments resp) ->
  DailyAssignment.employee_id a = Employee._id emp ->
  DailyAssignment.shift a <> "N".
Proof.
  intros Htext Hok Hnd Hin Ha Hid.
  apply contains_any3 in Htext.
  assert (has_flag (with_interpretation emp (interpret_preferences lower text))
            "no_night" = true) as Hflag.
  { unfold has_flag, with_interpretation. cbn [Employee.hard_rules].
    assert (PreferenceInterpretation.hard_rules
              (interpret_preferences lower text) !! "no_night"
            = Some (PyBool true)) as ->; [|reflexivity].
    apply interpret_hard_lookup. left. auto. }
  apply generate_schedule_ok in Hok as (_ & Hr & Hl). rewrite Hl in Ha.
  apply elem_of_roster in Ha as (i & idx & emp' & Hi & Hemp & ->).
  unfold entry_of, entry_on in *.
  cbn [DailyAssignment.employee_id DailyAssignment.shift] in *.
  assert (emp' = with_interpretation emp (interpret_preferences lower text))
    as -> by (eapply employee_of_id; eauto).
  apply spec_shift_no_night. exact Hflag.
Qed.

Lemma occurs_in_trans (sub t t' : string) :
  occurs_in sub t -> occurs_in t t' -> occurs_in sub t'.
Proof.
  intros Hsub (pre & post & ->). apply occurs_in_context. exact Hsub.
Qed.

(** X12. The matcher knows no negation and no context: whenever the
    lower-cased form of a text occurs inside the lower-cased form of
    another, every hard rule and every soft preference read from the
    first text is also read from the second. *)
Theorem interpret_ignores_context (text text' k : string) (v : PyVal) :
  occurs_in (lower text) (lower text') ->
  (PreferenceInterpretation.hard_rules (interpret_preferences lower text) !! k
   = Some v ->
   PreferenceInterpretation.hard_rules (interpret_preferences lower text') !! k
   = Some v)
  /\
  (PreferenceInterpretation.soft_preferences
     (interpret_preferences lower text) !! k = Some v ->
   PreferenceInterpretation.soft_preferences
     (interpret_preferences lower text') !! k = Some v).
Proof.
  intros Hin.
  assert (forall sub, str_contains sub (lower text) = true ->
            str_contains sub (lower text') = true) as Hmono.
  { intros sub H. apply str_contains_spec. apply str_contains_spec in H.
    exact (occurs_in_trans sub _ _ H Hin). }
  split; intros H.
  - apply interpret_hard_lookup in H. apply interpret_hard_lookup.
    destruct H as [(-> & -> & H) | (-> & -> & H)]; [left | right];
      (split; [reflexivity|]); (split; [reflexivity|]);
      rewrite ?orb_true_iff in *; intuition auto.
  - apply interpret_soft_lookup in H. apply interpret_soft_lookup.
    destruct H as [(-> & -> & H) | (-> & -> & H)]; [left | right];
      (split; [reflexivity|]); (split; [reflexivity|]);
      rewrite ?orb_true_iff in *; intuition auto.
Qed.

End InterpretedRules.

Lemma interpreted_text_never_night_witness :
  DailyAssignment.shift
    {| DailyAssignment.date := "2024-01-03";
       DailyAssignment.employee_id := "e0";
       DailyAssignment.shift := "D" |} <> "N".
Proof.
  refine (interpreted_text_never_night ascii_lower "Please, NEVER night."
            {| db_employee :=
                 [ with_interpretation (employee "e0" "solo" None)
                     (interpret_preferences ascii_lower
                        "Please, NEVER night.") ];
               db_schedule := [] |}
            0 "s1" (request "solo" 2024 1)
            {| GenerateResponse.id := "s1";
               GenerateResponse.assignments :=
                 roster 2024 1
                   [ with_interpretation (employee "e0" "solo" None)
                       (interpret_preferences ascii_lower
                          "Please, NEVER night.") ] |}
            (employee "e0" "solo" None) _ _ _ _ _ _ _).
  - left. apply str_contains_spec. vm_compute. reflexivity.
  - vm_compute. reflexivity.
  - apply (bool_decide_unpack _). vm_compute. exact I.
  - vm_compute. tauto.
  - vm_compute. tauto.
  - reflexivity.
Defined.

Lemma interpret_ignores_context_witness :
  PreferenceInterpretation.hard_rules
    (interpret_preferences ascii_lower "I would NOT say never night")
    !! "no_night"
  = Some (PyBool true).
Proof.
  apply (interpret_ignores_context ascii_lower "Never Night"
           "I would NOT say never night" "no_night" (PyBool true)).
  - apply str_contains_spec. vm_compute. reflexivity.
  - vm_compute. reflexivity.
Defined.

(** ** Logging in *)

Section Login.

Lemma find_one_user_Some (users : list User.doc) (name : string) (u : User.doc) :
  find_one_user users name = Some u ->
  In u users /\ User.username u = name /\ User.is_active u = true.
Proof.
  intros H. unfold find_one_user in H.
  apply head_Some_elem_of, list_elem_of_filter in H as [[Hn Ha] Hin].
  repeat split; [apply list_elem_of_In; exact Hin | exact Hn | exact Ha].
Qed.

Lemma update_one_session_token_insert (users : list User.doc) (i : nat)
    (u : User.doc) (token : string) :
  NoDup (User._id <$> users) -> users !! i = Some u ->
  update_one_session_token users (User._id u) token
  = <[i := set_session_token u token]> users.
Proof.
  revert i. induction users as [|x users IH]; intros i Hnd Hi; [discriminate|].
  rewrite fmap_cons in Hnd. apply NoDup_cons in Hnd as [Hx Hnd].
  cbn [update_one_session_token]. destruct i as [|i]; cbn in Hi.
  - injection Hi as ->. rewrite decide_True by reflexivity. reflexivity.
  - destruct (decide (User._id x = User._id u)) as [Heq|Hne].
    + exfalso. apply Hx. rewrite Heq. apply list_elem_of_fmap.
      exists u. split; [reflexivity|]. apply list_elem_of_lookup. eauto.
    + cbn. f_equal. apply IH; assumption.
Qed.

(** X13. Without a matching account no one gets in and nothing is
    written: when no active user with the submitted username has the
    submitted text as its stored [password_hash], [login] ends with
    401 "Invalid credentials" and the user collection is as it was. *)
Theorem login_rejects_without_account (users : list User.doc) (now : Z)
    (req : LoginRequest.t) :
  (forall u, In u users ->
     User.username u = LoginRequest.username req ->
     User.is_active u = true ->
     User.password_hash u <> LoginRequest.password req) ->
  login users now req
  = (users, Raise (HTTPException 401 "Invalid credentials")).
Proof.
  intros Hno. unfold login.
  destruct (find_one_user users (LoginRequest.username req)) as [u|] eqn:Hfind;
    [|reflexivity].
  apply find_one_user_Some in Hfind as (Hin & Hn & Ha).
  specialize (Hno u Hin Hn Ha). apply String.eqb_neq in Hno.
  rewrite Hno. reflexivity.
Qed.

Lemma login_rejects_without_account_witness :
  login staff 1730750000 {| LoginRequest.username := "ola";
                            LoginRequest.password := "passord" |}
  = (staff, Raise (HTTPException 401 "Invalid credentials")).
Proof.
  apply login_rejects_without_account.
  intros u Hin Hname Hactive. cbn in Hin, Hname.
  destruct Hin as [<- | [<- | [<- | []]]]; cbn in Hname, Hactive;
    discriminate.
Defined.

(** X14. Whoever gets in is an active stored user with exactly the
    submitted username and, as stored [password_hash], exactly the
    submitted password; the answer carries that user's role and the
    token "demo-<username>-<now>". *)
Theorem login_answers_for_stored_user (users : list User.doc) (now : Z)
    (req : LoginRequest.t) (resp : LoginResponse.t) :
  snd (login users now req) = Ok resp ->
  exists u, In u users /\
    User.username u = LoginRequest.username req /\
    User.is_active u = true /\
    User.password_hash u = LoginRequest.password req /\
    LoginResponse.username resp = LoginRequest.username req /\
    LoginResponse.role resp = User.role u /\
    LoginResponse.token resp
    = ("demo-" ++ LoginRequest.username req ++ "-" ++ str_of_int now)%string.
Proof.
  unfold login.
  destruct (find_one_user users (LoginRequest.username req)) as [u|] eqn:Hfind;
    [|discriminate].
  destruct (String.eqb_spec (User.password_hash u) (LoginRequest.password req))
    as [Hpw|Hpw]; [|discriminate].
  cbn [negb snd]. intros [= <-].
  apply find_one_user_Some in Hfind as (Hin & Hn & Ha).
  exists u. cbn [LoginResponse.username LoginResponse.role LoginResponse.token].
  rewrite Hn. repeat split; assumption.
Qed.

Lemma login_answers_for_stored_user_witness :
  exists u, In u staff /\
    User.username u = "kari" /\ User.is_active u = true /\
    User.password_hash u = "hemmelig" /\
    "kari" = "kari" /\ "department_leader" = User.role u /\
    "demo-kari-1730750000" = ("demo-" ++ "kari" ++ "-" ++ str_of_int 1730750000)%string.
Proof.
  apply (login_answers_for_stored_user staff 1730750000
           {| LoginRequest.username := "kari";
              LoginRequest.password := "hemmelig" |}
           {| LoginResponse.token := "demo-kari-1730750000";
              LoginResponse.role := "department_leader";
              LoginResponse.username := "kari" |}).
  vm_compute. reflexivity.
Defined.

(** X15. A successful login writes the token to the account that logged
    in and to nothing else: with distinct user identifiers, the
    collection afterwards is the one before with the returned token as
    [session_token] of one user of the submitted name, every other
    document and the order unchanged. *)
Theorem login_stores_token (users : list User.doc) (now : Z)
    (req : LoginRequest.t) (resp : LoginResponse.t) :
  snd (login users now req) = Ok resp ->
  NoDup (User._id <$> users) ->
  exists i u,
    users !! i = Some u /\
    User.username u = LoginRequest.username req /\
    fst (login users now req)
    = <[i := set_session_token u (LoginResponse.token resp)]> users.
Proof.
  unfold login.
  destruct (find_one_user users (LoginRequest.username req)) as [u|] eqn:Hfind;
    [|discriminate].
  destruct (String.eqb_spec (User.password_hash u) (LoginRequest.password req))
    as [Hpw|Hpw]; [|discriminate].
  cbn [negb snd fst]. intros [= <-] Hnd.
  apply find_one_user_Some in Hfind as (Hin & Hn & Ha).
  apply list_elem_of_In, list_elem_of_lookup in Hin as [i Hi].
  exists i, u. cbn [LoginResponse.token].
  repeat split; [exact Hi | exact Hn |].
  apply update_one_session_token_insert; assumption.
Qed.

Lemma login_stores_token_witness :
  exists i u,
    staff !! i = Some u /\ User.username u = "per" /\
    fst (login staff 1730750000 {| LoginRequest.username := "per";
                                   LoginRequest.password := "1234" |})
    = <[i := set_session_token u "demo-per-1730750000"]> staff.
Proof.
  apply (login_stores_token staff 1730750000
           {| LoginRequest.username := "per"; LoginRequest.password := "1234" |}
           {| LoginResponse.token := "demo-per-1730750000";
              LoginResponse.role := "department_leader";
              LoginResponse.username := "per" |}).
  - vm_compute. reflexivity.
  - apply (bool_decide_unpack _). vm_compute. exact I.
Defined.

End Login.

(** ** Document identifiers *)

Section DocumentIds.

Variable str : PyVal -> string.

(** X16. [OID.to_str] moves the identifier and nothing else: for a
    document with a truthy ["_id"], the result has no ["_id"], holds the
    text of the old identifier under ["id"], and agrees with the
    document on every other key. *)
Theorem to_str_moves_id (doc : gmap string PyVal) (v : PyVal) :
  doc !! "_id" = Some v -> truthy v = true ->
  to_str str doc !! "_id" = None /\
  to_str str doc !! "id" = Some (PyStr (str v)) /\
  (forall k, k <> "_id" -> k <> "id" -> to_str str doc !! k = doc !! k).
Proof.
  intros Hid Htrue. unfold to_str, dict_get. rewrite Hid. cbn [default].
  simpl. rewrite Htrue. split; [|split].
  - rewrite lookup_insert_ne by discriminate. apply lookup_delete_eq.
  - apply lookup_insert_eq.
  - intros k Hk1 Hk2.
    rewrite lookup_insert_ne by congruence.
    rewrite lookup_delete_ne by congruence. reflexivity.
Qed.

(** X17. [OID.to_str] is idempotent: a second pass over a document
    changes nothing, whether the first pass moved an identifier or found
    none (or a falsy one) to move. *)
Theorem to_str_idempotent (doc : gmap string PyVal) :
  to_str str (to_str str doc) = to_str str doc.
Proof.
  destruct (doc !! "_id") as [v|] eqn:Hid.
  - destruct (truthy v) eqn:Htrue.
    + assert (to_str str doc = <["id" := PyStr (str v)]> (delete "_id" doc))
        as -> by (unfold to_str, dict_get; rewrite Hid; simpl;
                  rewrite Htrue; reflexivity).
      unfold to_str, dict_get.
      rewrite lookup_insert_ne by discriminate.
      rewrite lookup_delete_eq. reflexivity.
    + assert (to_str str doc = doc) as Hsame
        by (unfold to_str, dict_get; rewrite Hid; simpl;
            rewrite Htrue; reflexivity).
      rewrite !Hsame. reflexivity.
  - assert (to_str str doc = doc) as Hsame
      by (unfold to_str, dict_get; rewrite Hid; reflexivity).
    rewrite !Hsame. reflexivity.
Qed.

End DocumentIds.

Lemma to_str_moves_id_witness :
  let doc : gmap string PyVal :=
    <["_id" := PyStr "65a1"]> (<["name" := PyStr "Sykehjem"]> ∅) in
  to_str (fun _ => "65a1") doc !! "_id" = None /\
  to_str (fun _ => "65a1") doc !! "id" = Some (PyStr "65a1") /\
  (forall k, k <> "_id" -> k <> "id" ->
             to_str (fun _ => "65a1") doc !! k = doc !! k).
Proof.
  intros doc.
  apply (to_str_moves_id (fun _ => "65a1") doc (PyStr "65a1")).
  - vm_compute. reflexivity.
  - vm_compute. reflexivity.
Defined.
